(** * Taft: the template composition engine of [index.js]

    A shallow embedding of the [Taft] object: its global data store, its
    layout registry with the default layout, the render closure built by
    [_createTemplate], layout application ([_applyLayout]) and [build].

    The object is a record threaded through a small state-and-exception
    monad.  The collaborators that [index.js] only calls (gray-matter, the
    Handlebars compiler, Node's [path], [lib/data], [lib/merge-glob]) are
    fields of one record, [collaborators]; every definition is stated for
    an arbitrary such record, and module [Run] supplies a small concrete one
    for the executable examples. *)

From stdpp Require Import gmap strings list fin_maps pretty.
From Stdlib Require Import ZArith Ascii.

Set Warnings "-register-all".

(** ** JavaScript values

    Numbers are the integers that front matter and data files carry;
    [VObj] is a plain object used as a mapping.  Values are immutable here:
    [merge.clone] is the identity, and the in-place updates of the source
    are written as functional updates. *)

Inductive value : Type :=
  | VUndef
  | VNull
  | VBool (b : bool)
  | VNum (n : Z)
  | VStr (s : string)
  | VArr (l : list value)
  | VObj (m : gmap string value).

(** [!v] is false *)
Definition truthy (v : value) : bool :=
  match v with
  | VUndef | VNull => false
  | VBool b => b
  | VNum n => negb (n =? 0)%Z
  | VStr s => negb (bool_decide (s = ""))
  | VArr _ | VObj _ => true
  end.

(** [o.k]: an absent property reads as [undefined] *)
Definition get (o : gmap string value) (k : string) : value :=
  default VUndef (o !! k).

(** ['' + v], as used when a value is spliced into a message *)
Fixpoint to_string (v : value) : string :=
  match v with
  | VUndef => "undefined"
  | VNull => "null"
  | VBool true => "true"
  | VBool false => "false"
  | VNum n => pretty n
  | VStr s => s
  | VArr l =>
      String.concat ","
        (map (fun x => match x with VUndef | VNull => "" | _ => to_string x end) l)
  | VObj _ => "[object Object]"
  end.

(** ** The [merge] package (dependency [merge ^1.2.1], called as
    [merge(...)], never as [merge.recursive(...)])

    [merge(clone?, item, ...)] copies the own properties of every object
    argument, from left to right, onto the result: the first argument when
    it is an object and [clone] is not requested, a fresh object otherwise.
    The copy is one level deep: a property of a later argument replaces the
    property of the same name, whatever the two values are.  Arguments that
    are not plain objects are skipped.  Keys are ordinary property names:
    the package's guard against the key [__proto__] and the order of the
    keys of an object are outside the model. *)
Definition merge (argv : list value) : gmap string value :=
  let clone := match argv with VBool true :: _ => true | _ => false end in
  let result :=
    match argv with
    | VObj m :: _ => if clone then ∅ else m
    | _ => ∅
    end in
  foldl (fun result item =>
           match item with
           | VObj m => m ∪ result
           | _ => result
           end) result argv.

(** ** Errors and completions *)

(** a thrown [Error]: its [code] (set by the file system) and its [message] *)
Record error : Type := Error_ { code : option string; message : string }.

(** [new Error(msg)] *)
Definition Error (msg : string) : error := {| code := None; message := msg |}.

(** [new Error('unable to render layout ' + layout + ' (' + e.message + ')')] *)
Definition layout_error (layout : value) (e : error) : error :=
  Error ("unable to render layout " +:+ to_string layout +:+ " (" +:+ message e +:+ ")").

(** How a call ends: it returns, it throws, or the model ran out of fuel
    (the layout chain did not end within the given depth). *)
Inductive completion (A : Type) : Type :=
  | Normal (a : A)
  | Throw (e : error)
  | Diverge.
Arguments Normal {A} a.
Arguments Throw {A} e.
Arguments Diverge {A}.

(** ** Content

    Modelled from the spec: [lib/content.js] is not part of the sources at
    hand.  Section 3 gives a Content a [body], the [data] it was rendered
    with and a [source] that only [build] sets; [new Content()] is the empty
    Content and [toString()] gives the body. *)
Record Content : Type := mkContent {
  body : string;
  data_of : gmap string value;
  source : option string
}.

(** [new Content(body, data)] *)
Definition new_Content (b : string) (d : gmap string value) : Content :=
  {| body := b; data_of := d; source := None |}.

(** [new Content()] *)
Definition empty_Content : Content := new_Content "" ∅.

(** [content.source = file] *)
Definition set_source (c : Content) (file : string) : Content :=
  {| body := body c; data_of := data_of c; source := Some file |}.

(** [content.data.page = merge.clone(content.data)] *)
Definition set_page (c : Content) : Content :=
  {| body := body c;
     data_of := <["page" := VObj (data_of c)]> (data_of c);
     source := source c |}.

(** ** The Taft object *)

(** The function returned by [_createTemplate]: the variables its body
    closes over. *)
Record template : Type := mkTemplate {
  t_file : string;                (* file *)
  t_page : string;                (* page *)
  t_data : gmap string value;     (* data *)
  t_isLayout : bool               (* options.isLayout *)
}.

(** A value of the [_layouts] Map: the path given to [layouts()], the
    compiled template that [_getLayout] stored over it, or the [undefined]
    stored when the layout file is not published. *)
Inductive layout_entry : Type :=
  | Path (p : string)
  | Compiled (t : template)
  | Unpublished.

Record Taft : Type := mkTaft {
  _options_defaultLayout : option string;     (* this._options.defaultLayout *)
  silent : bool;
  verbose : bool;
  _data : gmap string value;
  _helpers : list string;
  _layouts : list (string * layout_entry);    (* a Map, in insertion order *)
  _defaultLayout : option string;
  partials : gmap string string;              (* this.Handlebars.partials *)
  console : list string                       (* lines of console.error, oldest first *)
}.

(** The fields as the constructor leaves them before it chains
    [data], [helpers], [partials] and [layouts]. *)
Definition new_Taft (defaultLayout : option string) (silent verbose : bool) : Taft :=
  {| _options_defaultLayout := defaultLayout;
     silent := silent; verbose := verbose;
     _data := ∅; _helpers := []; _layouts := []; _defaultLayout := None;
     partials := ∅; console := [] |}.

Definition set_data (d : gmap string value) (t : Taft) : Taft :=
  mkTaft (_options_defaultLayout t) (silent t) (verbose t) d (_helpers t)
         (_layouts t) (_defaultLayout t) (partials t) (console t).

Definition set_layouts (l : list (string * layout_entry)) (t : Taft) : Taft :=
  mkTaft (_options_defaultLayout t) (silent t) (verbose t) (_data t) (_helpers t)
         l (_defaultLayout t) (partials t) (console t).

Definition set_defaultLayout (d : option string) (t : Taft) : Taft :=
  mkTaft (_options_defaultLayout t) (silent t) (verbose t) (_data t) (_helpers t)
         (_layouts t) d (partials t) (console t).

Definition set_partials (p : gmap string string) (t : Taft) : Taft :=
  mkTaft (_options_defaultLayout t) (silent t) (verbose t) (_data t) (_helpers t)
         (_layouts t) (_defaultLayout t) p (console t).

Definition set_console (c : list string) (t : Taft) : Taft :=
  mkTaft (_options_defaultLayout t) (silent t) (verbose t) (_data t) (_helpers t)
         (_layouts t) (_defaultLayout t) (partials t) c.

(** ** The Map of layouts *)

Module LayoutMap.

Definition has {V} (k : string) (m : list (string * V)) : bool :=
  bool_decide (k ∈ m.*1).

Fixpoint get {V} (k : string) (m : list (string * V)) : option V :=
  match m with
  | [] => None
  | (k', v) :: m' => if bool_decide (k' = k) then Some v else get k m'
  end.

(** [Map.prototype.set]: a known key keeps its place, a new one goes last *)
Fixpoint set {V} (k : string) (v : V) (m : list (string * V)) : list (string * V) :=
  match m with
  | [] => [(k, v)]
  | (k', v') :: m' =>
      if bool_decide (k' = k) then (k, v) :: m' else (k', v') :: set k v m'
  end.

Definition keys {V} (m : list (string * V)) : list string := m.*1.

Definition size {V} (m : list (string * V)) : nat := length m.

End LayoutMap.

(** ** The monad: state of the object, exceptions, fuel *)

Definition M (A : Type) : Type := Taft -> completion A * Taft.

Definition ret {A} (a : A) : M A := fun t => (Normal a, t).

Definition bind {A B} (c : M A) (k : A -> M B) : M B :=
  fun t =>
    match c t with
    | (Normal a, t1) => k a t1
    | (Throw e, t1) => (Throw e, t1)
    | (Diverge, t1) => (Diverge, t1)
    end.

Definition throw {A} (e : error) : M A := fun t => (Throw e, t).

Definition diverge {A} : M A := fun t => (Diverge, t).

Definition modify (f : Taft -> Taft) : M unit := fun t => (Normal tt, f t).

Notation "'do' x <- c ; k" := (bind c (fun x => k))
  (at level 10, x name, c at level 100, k at level 200).
Notation "c ;; k" := (bind c (fun _ => k))
  (at level 100, k at level 200, right associativity).

(** [try { body } catch (e) { handler } finally { final }] *)
Definition try_catch_finally {A} (body : M A) (handler : error -> M A) (final : M unit) : M A :=
  fun t =>
    let '(r, t1) :=
      match body t with
      | (Throw e, t0) => handler e t0
      | done => done
      end in
    match r with
    | Diverge => (Diverge, t1)
    | _ =>
        match final t1 with
        | (Normal _, t2) => (r, t2)
        | (Throw e, t2) => (Throw e, t2)
        | (Diverge, t2) => (Diverge, t2)
        end
    end.

(** [try { body } catch (e) { handler }] *)
Definition try_catch {A} (body : M A) (handler : error -> M A) : M A :=
  fun t =>
    match body t with
    | (Throw e, t0) => handler e t0
    | done => done
    end.

(** ** Diagnostics *)

Definition err (msg : string) : M unit :=
  modify (fun t => set_console (console t ++ [msg]) t).

Definition info (msg : string) : M unit :=
  fun t => if negb (silent t) then err msg t else ret tt t.

Definition debug (msg : string) : M unit :=
  fun t => if verbose t && negb (silent t) then err msg t else ret tt t.

(** ** Handlebars' partial registry *)

Definition registerPartial (name content : string) : M unit :=
  modify (fun t => set_partials (<[name := content]> (partials t)) t).

Definition unregisterPartial (name : string) : M unit :=
  modify (fun t => set_partials (delete name (partials t)) t).

(** [String.prototype.trimLeft], on the ASCII white space *)
Definition is_space (c : ascii) : bool :=
  let n := nat_of_ascii c in
  (n =? 32) || ((9 <=? n) && (n <=? 13)).

Fixpoint trimLeft (s : string) : string :=
  match s with
  | String c s' => if is_space c then trimLeft s' else s
  | EmptyString => s
  end.

(** [Array.prototype.forEach] with a callback that works on the object *)
Fixpoint forEach {A} (f : A -> M unit) (l : list A) : M unit :=
  match l with
  | [] => ret tt
  | x :: l' => f x ;; forEach f l'
  end.

(** [Object.keys(o)] *)
Definition Object_keys (o : gmap string value) : list string := (map_to_list o).*1.

(** ** Collaborators *)

(** One argument of [data()], after [flatten]: a string (a file, a glob or
    literal JSON, YAML or INI text) or an object. *)
Inductive argument : Type :=
  | ArgStr (s : string)
  | ArgObj (o : gmap string value).

Record collaborators : Type := {
  (** [gm.read(file, {strict: true})]: the front matter ([source.data || {}])
      and the text below it ([source.content || '']), or the error thrown *)
  gm_read : string -> error + (gmap string value * string);
  (** [Handlebars.compile(page, {knownHelpers})(tplData)], which reads the
      registered partials when it runs *)
  hb_render : list string -> gmap string string -> string -> gmap string value
              -> error + string;
  path_resolve : string -> string;
  (** [path.basename(p)] and [path.basename(p, ext)] *)
  path_basename : string -> option string -> string;
  path_extname : string -> string;
  (** the TypeError of [path.extname] on an argument that is not a string *)
  path_type_error : value -> error;
  (** [lib/merge-glob]: the files matched by a list of paths and globs *)
  mergeGlob : list string -> list string;
  (** [lib/data]'s [Data.parse(argument, callback)]: what the callback is
      called with, in order: [(err)] or [(null, data)] *)
  Data_parse : argument -> list (error + gmap string value)
}.

Section Taft.

Context (E : collaborators).

Definition stripExtname (file : string) : string :=
  path_basename E file (Some (path_extname E file)).

(** *** [Taft.prototype.layouts] *)

(** [layouts()] without arguments: the registered names *)
Definition layouts_names (t : Taft) : list string := LayoutMap.keys (_layouts t).

Definition layouts (args : list string) : M unit :=
  forEach (fun item =>
             modify (fun t => set_layouts
                                (LayoutMap.set (stripExtname item) (Path item) (_layouts t)) t))
          (mergeGlob E args) ;;
  (fun t => debug ("added layouts: " +:+ String.concat ", " (LayoutMap.keys (_layouts t))) t) ;;
  (fun t =>
     if bool_decide (LayoutMap.size (_layouts t) = 1) then
       match _layouts t with
       | (k, _) :: _ => modify (set_defaultLayout (Some k)) t
       | [] => ret tt t
       end
     else
       match _options_defaultLayout t with
       | Some d => if truthy (VStr d)
                   then modify (set_defaultLayout (Some (stripExtname d))) t
                   else ret tt t
       | None => ret tt t
       end) ;;
  (fun t =>
     match _defaultLayout t with
     | Some d => if truthy (VStr d)
                 then debug ("set default layout to " +:+ d) t
                 else ret tt t
     | None => ret tt t
     end).

(** the Map that [layouts(args)] leaves in [_layouts] *)
Definition registered (args : list string) (m : list (string * layout_entry)) :=
  foldl (fun m item => LayoutMap.set (stripExtname item) (Path item) m) m (mergeGlob E args).

(** the default that [layouts(args)] leaves in [_defaultLayout] *)
Definition default_after (args : list string) (t : Taft) : option string :=
  let m := registered args (_layouts t) in
  if bool_decide (LayoutMap.size m = 1) then
    match m with
    | (k, _) :: _ => Some k
    | [] => _defaultLayout t
    end
  else
    match _options_defaultLayout t with
    | Some d => if truthy (VStr d) then Some (stripExtname d) else _defaultLayout t
    | None => _defaultLayout t
    end.

(** *** [Taft.prototype.defaultLayout] *)

(** [defaultLayout()] without an argument is the field [_defaultLayout];
    this is [defaultLayout(layout)]. *)
Definition defaultLayout (layout : string) : M unit :=
  let layout := stripExtname layout in
  fun t =>
    if bool_decide (layout ∈ layouts_names t)
    then modify (set_defaultLayout (Some layout)) t
    else info ("Not setting default layout. Could not find: " +:+ layout) t.

(** Without the constructor option, a default is always a registered name:
    the invariant behind "once a default is set". *)
Definition default_registered (t : Taft) : Prop :=
  forall d, _defaultLayout t = Some d -> d ∈ layouts_names t.

(** *** [Taft.prototype.data] *)

(** the callback handed to [Data.parse] *)
Definition data_callback (arg : argument) (r : error + gmap string value) : M unit :=
  match r with
  | inl e => err (message e)
  | inr d =>
      try_catch
        (match Object_keys d with
         | [] => ret tt
         | [k] => debug ("parsed " +:+ k)
         | _ :: _ :: _ =>
             match arg with
             | ArgStr s => debug ("parsed " +:+ String.substring 0 60 s)
             | ArgObj _ => throw (Error "argument.substr is not a function")
             end
         end ;;
         modify (fun t => set_data (merge [VObj (_data t); VObj d]) t))
        (fun e => err "error reading ")
  end.

Definition data (args : list argument) : M unit :=
  forEach (fun arg => forEach (data_callback arg) (Data_parse E arg)) args.

(** The sources on which the callback reaches [merge]: a string, on which
    [argument.substr] is defined, or an object whose data has at most one
    key, for which [argument.substr] is not called. *)
Definition reaches_merge (arg : argument) (d : gmap string value) : Prop :=
  match arg with
  | ArgStr _ => True
  | ArgObj _ => length (Object_keys d) <= 1
  end.

(** *** [Taft.prototype._createTemplate] *)

Definition unpublished (context : gmap string value) : bool :=
  match get context "published" with
  | VBool false => true
  | VNum 0 => true
  | _ => false
  end.

(** the front matter after the "Assign layout" step *)
Definition assign_layout (file : string) (isLayout : bool)
    (context : gmap string value) : M (gmap string value) :=
  fun t =>
    match get context "layout" with
    | VBool false | VNum 0 =>
        (debug ("not using layout with " +:+ file) ;; ret context) t
    | l =>
        match _defaultLayout t with
        | Some d =>
            if negb (truthy l) && truthy (VStr d) && negb isLayout
            then ret (<["layout" := VStr d]> context) t
            else ret context t
        | None => ret context t
        end
    end.

Definition _createTemplate (file : string) (isLayout : bool) : M (option template) :=
  match gm_read E file with
  | inl e => throw e
  | inr (context, content) =>
      let page := trimLeft content in
      if unpublished context then ret None
      else
        do context <- assign_layout file isLayout context;
        fun t =>
          let data := merge [VBool true; VObj (_data t); VObj context] in
          ret (Some {| t_file := file; t_page := page; t_data := data;
                       t_isLayout := isLayout |}) t
  end.

(** *** [Taft.prototype._getLayout] *)

Definition _getLayout (name : value) : M (option template) :=
  match name with
  | VStr name =>
      let name := if bool_decide (path_extname E name = "") then name
                  else stripExtname name in
      fun t =>
        match LayoutMap.get name (_layouts t) with
        | None => (err ("could not find layout: " +:+ name) ;; ret None) t
        | Some (Path file) =>
            (do layout <- _createTemplate file true;
             modify (fun t => set_layouts
                                (LayoutMap.set name
                                   (match layout with
                                    | Some l => Compiled l
                                    | None => Unpublished
                                    end) (_layouts t)) t) ;;
             ret layout) t
        | Some (Compiled layout) => ret (Some layout) t
        | Some Unpublished => ret None t
        end
  | v => throw (path_type_error E v)
  end.

(** *** The function returned by [_createTemplate] *)

(** [tplData] as first computed *)
Definition tplData (tpl : template) (pageData : value) (preferGlobal : bool)
    : gmap string value :=
  if preferGlobal then merge [pageData; VObj (t_data tpl)]
  else merge [VBool true; VObj (t_data tpl); pageData].

(** "layout doesn't get overridden" *)
Definition own_layout (file : string) (tplData : gmap string value) : bool :=
  match get tplData "layout" with
  | VStr l => bool_decide (l = path_basename E file None)
              || bool_decide (l = stripExtname file)
  | _ => false
  end.

Definition clear_own_layout (file : string) (tplData : gmap string value)
    : gmap string value :=
  if own_layout file tplData then <["layout" := VUndef]> tplData else tplData.

(** The body of the closure, over the [_applyLayout] it ends with. *)
Definition render_with (applyLayout : value -> Content -> bool -> M Content)
    (tpl : template) (pageData : value) (preferGlobal : bool) : M Content :=
  fun t =>
    let tplData := clear_own_layout (t_file tpl) (tplData tpl pageData preferGlobal) in
    match hb_render E (_helpers t) (partials t) (t_page tpl) tplData with
    | inl e => throw e t
    | inr out =>
        let newTemplate := new_Content out tplData in
        applyLayout (get tplData "layout") newTemplate (t_isLayout tpl) t
    end.

(** *** [Taft.prototype._applyLayout]

    A layout may name a layout of its own, and nothing bounds the chain:
    [fuel] is the number of nested layouts the model follows.  Where the
    chain does not end, the model answers [Diverge]; Node ends such a chain
    with a RangeError once its stack is full, at a depth and a place that
    the source does not fix, and that exit is not part of the model.  What
    is proved below is about calls that return or throw, or holds however
    a call ends. *)
Fixpoint _applyLayout (fuel : nat) (layout : value) (content : Content)
    (isLayout : bool) : M Content :=
  if negb (truthy layout) then ret content
  else
    try_catch_finally
      (do layout_template <- _getLayout layout;
       match layout_template with
       | None => ret content
       | Some layout_template =>
           registerPartial "body" (body content) ;;
           let content := if negb isLayout then set_page content else content in
           match fuel with
           | O => diverge
           | S fuel' =>
               render_with (_applyLayout fuel') layout_template
                           (VObj (data_of content)) true
           end
       end)
      (fun e => throw (layout_error layout e))
      (unregisterPartial "body").

(** calling a template function *)
Definition render (fuel : nat) (tpl : template) (pageData : value)
    (preferGlobal : bool) : M Content :=
  render_with (_applyLayout fuel) tpl pageData preferGlobal.

(** *** [Taft.prototype.build] *)

(** the [try] block: [inl tt] is its early [return;] *)
Definition build_try (fuel : nat) (file : string) (data : value) : M (unit + Content) :=
  do template <- _createTemplate (path_resolve E file) false;
  match template with
  | None => debug ("ignoring " +:+ file) ;; ret (inl tt)
  | Some template =>
      debug ("building: " +:+ file) ;;
      do content <- render fuel template data false;
      ret (inr content)
  end.

Definition build (fuel : nat) (file : string) (data : value) : M (option Content) :=
  do r <- try_catch (build_try fuel file data)
            (fun e =>
               if bool_decide (code e = Some "EISDIR") then ret (inl tt)
               else
                 err ("error building " +:+ file +:+ ": " +:+ message e) ;;
                 ret (inr empty_Content));
  match r with
  | inl _ => ret None
  | inr content => ret (Some (set_source content file))
  end.

End Taft.

(** ** A concrete site for the executable examples *)

Module Run.

(** POSIX [path.basename] and [path.extname] on plain file names *)
Fixpoint drop_slashes (cs : list ascii) : list ascii :=
  match cs with
  | c :: cs' => if bool_decide (c = "/"%char) then drop_slashes cs' else cs
  | [] => []
  end.

Fixpoint upto (stop : ascii) (cs : list ascii) : list ascii :=
  match cs with
  | c :: cs' => if bool_decide (c = stop) then [] else c :: upto stop cs'
  | [] => []
  end.

Definition base (p : string) : list ascii :=
  reverse (upto "/"%char (drop_slashes (reverse (String.list_ascii_of_string p)))).

Definition extname (p : string) : string :=
  let b := base p in
  let tail := upto "."%char (reverse b) in
  if bool_decide (length tail < length b - 1)
  then String.string_of_list_ascii ("."%char :: reverse tail)
  else "".

Definition basename (p : string) (ext : option string) : string :=
  let b := base p in
  match ext with
  | Some e =>
      let n := length b - String.length e in
      if bool_decide (0 < String.length e < length b)
         && bool_decide (String.string_of_list_ascii (drop n b) = e)
      then String.string_of_list_ascii (take n b)
      else String.string_of_list_ascii b
  | None => String.string_of_list_ascii b
  end.

Definition resolve (p : string) : string :=
  match p with
  | String "/" _ => p
  | _ => "/site/" +:+ p
  end.

(** the files of the site *)
Definition read (file : string) : error + (gmap string value * string) :=
  if bool_decide (file = "/site/index.html") then
    inr ({[ "title" := VStr "Hi"; "layout" := VStr "main" ]}, "  <p>Hi</p>")
  else if bool_decide (file = "/site/broken.html") then
    inr ({[ "layout" := VStr "bad" ]}, "<p>broken</p>")
  else if bool_decide (file = "/site/plain.html") then
    inr ({[ "layout" := VBool false ]}, "plain")
  else if bool_decide (file = "/site/self.html") then
    inr ({[ "layout" := VStr "self.html" ]}, "me")
  else if bool_decide (file = "/site/draft.html") then
    inr ({[ "published" := VBool false ]}, "draft")
  else if bool_decide (file = "/site/layouts/main.html") then
    inr (∅, ">[main] ")
  else if bool_decide (file = "/site/layouts/bad.html") then
    inr (∅, "!helper failed")
  else if bool_decide (file = "/site/layouts/hidden.html") then
    inr ({[ "published" := VNum 0 ]}, ">[hidden] ")
  else if bool_decide (file = "/site/layouts") then
    inl {| code := Some "EISDIR"; message := "EISDIR: illegal operation on a directory, read" |}
  else
    inl {| code := Some "ENOENT"; message := "ENOENT: no such file or directory" |}.

(** a stand-in for the compiler: a page that starts with [>] is its text
    followed by the [body] partial, a page that starts with [!] throws its
    text, any other page is its own rendering *)
Definition handlebars (knownHelpers : list string) (partials : gmap string string)
    (page : string) (tplData : gmap string value) : error + string :=
  match page with
  | String ">" rest =>
      match partials !! "body" with
      | Some b => inr (rest +:+ b)
      | None => inl (Error "The partial body could not be found")
      end
  | String "!" rest => inl (Error rest)
  | _ => inr page
  end.

(** objects are their own data; a string is read as a file of the site *)
Definition parse (arg : argument) : list (error + gmap string value) :=
  match arg with
  | ArgObj o => [inr o]
  | ArgStr s =>
      match read (resolve s) with
      | inr (o, _) => [inr o]
      | inl e => [inl e]
      end
  end.

Definition site : collaborators :=
  {| gm_read := read;
     hb_render := handlebars;
     path_resolve := resolve;
     path_basename := basename;
     path_extname := extname;
     path_type_error := fun _ => Error "The path argument must be of type string";
     mergeGlob := fun l => l;
     Data_parse := parse |}.

(** [new Taft({layouts: [...]})], loud or silent *)
Definition taft (silent : bool) : Taft :=
  (layouts site ["/site/layouts/main.html"; "/site/layouts/bad.html";
                 "/site/layouts/hidden.html"]
           (new_Taft None silent false)).2.

End Run.

(** ** [Taft.prototype.partials]

    The items here are file names, as [mergeGlob] gives them for paths and
    globs; [readFileSync] is [fs.readFileSync(partial, 'utf8')] of the [rw]
    package. *)

Section Partials.

Context (E : collaborators) (readFileSync : string -> error + string).

(** the body of the [forEach], with the array [registered] so far *)
Fixpoint partials_each (items : list string) (registered : list string)
    : M (list string) :=
  match items with
  | [] => ret registered
  | partial :: items' =>
      let p := stripExtname E partial in
      match readFileSync partial with
      | inr text =>
          registerPartial p text ;;
          partials_each items' (registered ++ [p])
      | inl e =>
          (if bool_decide (code e = Some "EISDIR") then ret tt
           else err ("could not register partial: " +:+ p)) ;;
          partials_each items' registered
      end
  end.

Definition partials_files (args : list string) : M unit :=
  do registered <- partials_each (mergeGlob E args) [];
  match registered with
  | [] => ret tt
  | _ => debug ("registered partials: " +:+ String.concat ", " registered)
  end.

(** the partials that the readable files of a list leave registered *)
Definition partials_after (items : list string) (m : gmap string string)
    : gmap string string :=
  foldl (fun m partial =>
           match readFileSync partial with
           | inr text => <[stripExtname E partial := text]> m
           | inl _ => m
           end) m items.

(** the lines that the unreadable files of a list leave on the console *)
Definition partials_errors (items : list string) : list string :=
  omap (fun partial =>
          match readFileSync partial with
          | inl e => if bool_decide (code e = Some "EISDIR") then None
                     else Some ("could not register partial: " +:+ stripExtname E partial)
          | inr _ => None
          end) items.

End Partials.

(** ** What a call leaves alone *)

(** [t'] has the options, the flags, the data store, the known helpers and
    the default layout of [t], the same layout names in the same order, and
    every partial of [t] except possibly [body]; its console starts with the
    console of [t]. *)
Record keeps_setup (t t' : Taft) : Prop := {
  keeps_options : _options_defaultLayout t' = _options_defaultLayout t;
  keeps_silent : silent t' = silent t;
  keeps_verbose : verbose t' = verbose t;
  keeps_data : _data t' = _data t;
  keeps_helpers : _helpers t' = _helpers t;
  keeps_default : _defaultLayout t' = _defaultLayout t;
  keeps_names : LayoutMap.keys (_layouts t') = LayoutMap.keys (_layouts t);
  keeps_partials : forall k, k <> "body" -> partials t' !! k = partials t !! k;
  keeps_console : exists lines, console t' = console t ++ lines
}.

(** a computation whose end state is related to its start state, however
    it ends *)
Definition keeps (R : Taft -> Taft -> Prop) {A} (c : M A) : Prop :=
  forall t r t', c t = (r, t') -> R t t'.

(** ** What a lookup of a layout gives *)

Section Resolve.

Context (E : collaborators).

(** What [_getLayout] makes of an entry of the Map on the data store [d]:
    the error of reading its file, nothing when the file is not published,
    or the template, compiled now or taken from the entry. *)
Definition resolve_entry (d : gmap string value) (v : layout_entry)
    : error + option template :=
  match v with
  | Path file =>
      match gm_read E file with
      | inl e => inl e
      | inr (context, content) =>
          if unpublished context then inr None
          else inr (Some {| t_file := file; t_page := trimLeft content;
                            t_data := context ∪ d; t_isLayout := true |})
      end
  | Compiled layout => inr (Some layout)
  | Unpublished => inr None
  end.

(** what a name resolves to in an object *)
Definition resolves (t : Taft) (name : string) : option (error + option template) :=
  resolve_entry (_data t) <$> LayoutMap.get name (_layouts t).

(** how a lookup ends, from what the name resolves to *)
Definition lookup_result (o : option (error + option template))
    : completion (option template) :=
  match o with
  | None => Normal None
  | Some (inl e) => Throw e
  | Some (inr layout) => Normal layout
  end.

(** Two objects that render alike: the same known helpers, data store and
    default layout, the same partials apart from [body], and every layout
    name resolves to the same thing. *)
Record renders_alike (t t' : Taft) : Prop := {
  alike_helpers : _helpers t' = _helpers t;
  alike_data : _data t' = _data t;
  alike_default : _defaultLayout t' = _defaultLayout t;
  alike_partials : forall k, k <> "body" -> partials t' !! k = partials t !! k;
  alike_layouts : forall name, resolves t' name = resolves t name
}.

(** A computation that cannot tell two such objects apart, when they also
    agree on the partial [body]: it ends the same way on both, in two
    objects that again render alike and agree on [body]. *)
Definition blind {A} (c : M A) : Prop :=
  forall t t' r t1,
    renders_alike t t' ->
    partials t' !! "body" = partials t !! "body" ->
    c t = (r, t1) ->
    exists t1',
      c t' = (r, t1')
      /\ renders_alike t1 t1'
      /\ partials t1' !! "body" = partials t1 !! "body".

End Resolve.

(** ** Files of partials for the executable examples *)

Module Files.

(** partials on disk: two files, a directory, and nothing else *)
Definition readFileSync (file : string) : error + string :=
  if bool_decide (file = "/site/partials/head.hbs") then inr "<head>"
  else if bool_decide (file = "/site/partials/foot.hbs") then inr "<foot>"
  else if bool_decide (file = "/site/partials/more") then
    inl {| code := Some "EISDIR"; message := "EISDIR: illegal operation on a directory, read" |}
  else inl {| code := Some "ENOENT"; message := "ENOENT: no such file or directory" |}.

End Files.

(** ** What [data] leaves alone *)

(** [t'] has every key that the data store of [t] has, and the layouts, the
    default layout, the known helpers and the partials of [t]. *)
Record store_grows (t t' : Taft) : Prop := {
  grows_keys : forall k, is_Some (_data t !! k) -> is_Some (_data t' !! k);
  grows_layouts : _layouts t' = _layouts t;
  grows_default : _defaultLayout t' = _defaultLayout t;
  grows_helpers : _helpers t' = _helpers t;
  grows_partials : partials t' = partials t
}.

Section PartialsNames.

Context (E : collaborators) (readFileSync : string -> error + string).

(** the names that the readable files of a list are registered under *)
Definition partials_registered (items : list string) : list string :=
  omap (fun partial =>
          match readFileSync partial with
          | inr _ => Some (stripExtname E partial)
          | inl _ => None
          end) items.

End PartialsNames.

(** ** The merge, key by key

    The merge as the spec words it: [winner] overrides [loser] on every key
    that both have, and a key that only one of them has is kept. *)
Definition overrides (winner loser : gmap string value) (k : string) : option value :=
  match winner !! k with
  | Some v => Some v
  | None => loser !! k
  end.

(** * Properties *)

(** ** The monad *)

Lemma bind_normal {A B} (c : M A) (k : A -> M B) t a t1 :
  c t = (Normal a, t1) -> bind c k t = k a t1.
Proof. intros H. unfold bind. by rewrite H. Qed.

Lemma bind_throw {A B} (c : M A) (k : A -> M B) t e t1 :
  c t = (Throw e, t1) -> bind c k t = (Throw e, t1).
Proof. intros H. unfold bind. by rewrite H. Qed.

(** Whatever the body and the handler do, a [finally] block that cannot
    throw has run last when the statement returns or throws. *)
Lemma try_catch_finally_runs_final {A} (body : M A) handler (f : Taft -> Taft) t r t' :
  try_catch_finally body handler (modify f) t = (r, t') ->
  r <> Diverge ->
  exists t1, t' = f t1.
Proof.
  unfold try_catch_finally, modify.
  destruct (body t) as [[a|e|] t0].
  - intros [= <- <-] _. by exists t0.
  - destruct (handler e t0) as [[a'|e'|] t1]; intros [= <- <-] Hr;
      [by exists t1 | by exists t1 | done].
  - intros [= <- <-] Hr. done.
Qed.

(** what the statement gives when the body returns *)
Lemma try_catch_finally_normal {A} (body : M A) handler (f : Taft -> Taft) t a t1 :
  body t = (Normal a, t1) ->
  try_catch_finally body handler (modify f) t = (Normal a, f t1).
Proof. intros H. unfold try_catch_finally, modify. by rewrite H. Qed.

(** what the statement gives when the body throws and the handler rethrows *)
Lemma try_catch_finally_rethrow {A} (body : M A) (wrap : error -> error)
    (f : Taft -> Taft) t e t1 :
  body t = (Throw e, t1) ->
  try_catch_finally body (fun e => throw (wrap e)) (modify f) t = (Throw (wrap e), f t1).
Proof. intros H. unfold try_catch_finally, modify, throw. by rewrite H. Qed.

(** ** [_applyLayout] *)

Lemma applyLayout_unfold E fuel layout content isLayout :
  _applyLayout E fuel layout content isLayout =
  if negb (truthy layout) then ret content
  else
    try_catch_finally
      (do layout_template <- _getLayout E layout;
       match layout_template with
       | None => ret content
       | Some layout_template =>
           registerPartial "body" (body content) ;;
           let content := if negb isLayout then set_page content else content in
           match fuel with
           | O => diverge
           | S fuel' =>
               render_with E (_applyLayout E fuel') layout_template
                           (VObj (data_of content)) true
           end
       end)
      (fun e => throw (layout_error layout e))
      (unregisterPartial "body").
Proof. by destruct fuel. Qed.

(** C1. A call of [_applyLayout] that gets past its first line, and so
    every call that resolves a layout and registers the content as the
    partial [body], leaves no partial [body] registered when it returns and
    when it throws: the [finally] block has unregistered it. *)
Theorem applyLayout_unregisters_body E fuel layout content isLayout t r t' :
  truthy layout = true ->
  _applyLayout E fuel layout content isLayout t = (r, t') ->
  r <> Diverge ->
  partials t' !! "body" = None.
Proof.
  intros Hl Hrun Hr. rewrite applyLayout_unfold, Hl in Hrun. simpl in Hrun.
  apply try_catch_finally_runs_final in Hrun as [t1 ->]; [|done].
  simpl. apply lookup_delete_eq.
Qed.

(** The two exits on the concrete site: layout [main] renders, layout [bad]
    throws while it renders. *)
Lemma applyLayout_unregisters_body_witness :
  let page := new_Content "<p>Hi</p>" {[ "title" := VStr "Hi" ]} in
  let good := _applyLayout Run.site 2 (VStr "main") page false (Run.taft false) in
  let bad := _applyLayout Run.site 2 (VStr "bad") page false (Run.taft false) in
  (exists c, good.1 = Normal c /\ body c = "[main] <p>Hi</p>")
  /\ partials good.2 !! "body" = None
  /\ bad.1 = Throw (Error "unable to render layout bad (helper failed)")
  /\ partials bad.2 !! "body" = None.
Proof.
  intros page good bad. split; [|split; [|split]].
  - eexists. split; vm_compute; reflexivity.
  - apply (applyLayout_unregisters_body Run.site 2 (VStr "main") page false
             (Run.taft false) good.1 good.2).
    + reflexivity.
    + apply surjective_pairing.
    + vm_compute. discriminate.
  - vm_compute. reflexivity.
  - apply (applyLayout_unregisters_body Run.site 2 (VStr "bad") page false
             (Run.taft false) bad.1 bad.2).
    + reflexivity.
    + apply surjective_pairing.
    + vm_compute. discriminate.
Defined.

(** ** The render closure *)

Lemma merge_onto (a b : gmap string value) : merge [VObj a; VObj b] = b ∪ a.
Proof.
  unfold merge. simpl. f_equal. apply map_eq. intros k.
  rewrite lookup_union. by destruct (a !! k).
Qed.

Lemma merge_clone (a b : gmap string value) : merge [VBool true; VObj a; VObj b] = b ∪ a.
Proof. unfold merge. simpl. by rewrite (right_id_L ∅ (∪)). Qed.

Lemma tplData_preferGlobal tpl (callData : gmap string value) :
  tplData tpl (VObj callData) true = t_data tpl ∪ callData.
Proof. apply merge_onto. Qed.

Lemma tplData_preferCall tpl (callData : gmap string value) :
  tplData tpl (VObj callData) false = callData ∪ t_data tpl.
Proof. apply merge_clone. Qed.

(** the base data of a compiled template: the front matter, after the
    "Assign layout" step, over the global store *)
Lemma createTemplate_base_data E file isLayout t tpl t' :
  _createTemplate E file isLayout t = (Normal (Some tpl), t') ->
  exists context content context',
    gm_read E file = inr (context, content)
    /\ (assign_layout file isLayout context t).1 = Normal context'
    /\ t_data tpl = context' ∪ _data t.
Proof.
  unfold _createTemplate. destruct (gm_read E file) as [e|[context content]]; [done|].
  destruct (unpublished context); [done|]. unfold bind.
  destruct (assign_layout file isLayout context t) as [[context'| |] t1] eqn:Ha;
    [|intros [=]..].
  intros [= <- <-]. exists context, content, context'.
  split; [done|]. split; [by rewrite Ha|].
  simpl. rewrite merge_clone. f_equal.
  unfold assign_layout, debug, err, modify, bind, ret in Ha.
  repeat case_match; simplify_eq; done.
Qed.

(** the two merges of the closure, before the [layout] key is looked at *)
Lemma tplData_precedence tpl (callData : gmap string value) k :
  (forall v, t_data tpl !! k = Some v ->
             tplData tpl (VObj callData) true !! k = Some v)
  /\ (t_data tpl !! k = None ->
      tplData tpl (VObj callData) true !! k = callData !! k)
  /\ (forall v, callData !! k = Some v ->
                tplData tpl (VObj callData) false !! k = Some v)
  /\ (callData !! k = None ->
      tplData tpl (VObj callData) false !! k = t_data tpl !! k).
Proof.
  rewrite tplData_preferGlobal, tplData_preferCall.
  repeat split.
  - intros v H. by apply lookup_union_Some_l.
  - intros H. by apply lookup_union_r.
  - intros v H. by apply lookup_union_Some_l.
  - intros H. by apply lookup_union_r.
Qed.

Lemma tplData_overrides tpl (callData : gmap string value) preferGlobal k :
  tplData tpl (VObj callData) preferGlobal !! k
  = overrides (if preferGlobal then t_data tpl else callData)
              (if preferGlobal then callData else t_data tpl) k.
Proof.
  unfold overrides. destruct preferGlobal.
  - rewrite tplData_preferGlobal, lookup_union. by destruct (t_data tpl !! k), (callData !! k).
  - rewrite tplData_preferCall, lookup_union. by destruct (t_data tpl !! k), (callData !! k).
Qed.

(** the "Assign layout" step changes the front matter at [layout] only *)
Lemma assign_layout_other_keys file isLayout context t context' t' :
  assign_layout file isLayout context t = (Normal context', t') ->
  forall k, k <> "layout" -> context' !! k = context !! k.
Proof.
  unfold assign_layout, debug, err, modify, bind, ret. intros Hrun k Hk.
  repeat case_match; simplify_eq; try done; by rewrite lookup_insert_ne.
Qed.

(** what a compiled template closes over *)
Lemma createTemplate_closure E file isLayout t tpl t' :
  _createTemplate E file isLayout t = (Normal (Some tpl), t') ->
  exists context content frontMatter,
    gm_read E file = inr (context, content)
    /\ (forall k, k <> "layout" -> frontMatter !! k = context !! k)
    /\ tpl = {| t_file := file; t_page := trimLeft content;
                t_data := frontMatter ∪ _data t; t_isLayout := isLayout |}.
Proof.
  unfold _createTemplate. destruct (gm_read E file) as [e|[context content]]; [done|].
  destruct (unpublished context); [done|]. unfold bind.
  destruct (assign_layout file isLayout context t) as [[context'| |] t1] eqn:Ha;
    [|intros [=]..].
  intros [= <- <-]. exists context, content, context'.
  split; [done|]. split; [by eapply assign_layout_other_keys|].
  rewrite merge_clone. do 2 f_equal.
  unfold assign_layout, debug, err, modify, bind, ret in Ha.
  repeat case_match; by simplify_eq.
Qed.

(** C2, as the code has it.  The closure of a compiled template renders
    the page with one context and hands the Content made of it to
    [_applyLayout].  The base data of the closure is the front matter of
    the file, with the layout that was assigned to it, over the global
    store.  The context is the merge of the call data and the base data:
    with [preferGlobal] the base data overrides the call data on every key
    both have, without it the call data overrides the base data, and a key
    of only one side is kept.  The one exception is the key [layout]: when
    its merged value is the file's own basename, with or without the
    extension, the context has [undefined] there. *)
Theorem render_context_precedence E
    (applyLayout : value -> Content -> bool -> M Content) file isLayout t0 tpl t1
    (callData : gmap string value) (preferGlobal : bool) t :
  _createTemplate E file isLayout t0 = (Normal (Some tpl), t1) ->
  let winner := if preferGlobal then t_data tpl else callData in
  let loser := if preferGlobal then callData else t_data tpl in
  let own := exists name, overrides winner loser "layout" = Some (VStr name)
                          /\ (name = path_basename E file None
                              \/ name = stripExtname E file) in
  exists context content frontMatter ctx,
    gm_read E file = inr (context, content)
    /\ (forall k, k <> "layout" -> frontMatter !! k = context !! k)
    /\ (forall k, t_data tpl !! k = overrides frontMatter (_data t0) k)
    /\ render_with E applyLayout tpl (VObj callData) preferGlobal t
       = match hb_render E (_helpers t) (partials t) (trimLeft content) ctx with
         | inl e => (Throw e, t)
         | inr out => applyLayout (get ctx "layout") (new_Content out ctx) isLayout t
         end
    /\ (forall k, k <> "layout" -> ctx !! k = overrides winner loser k)
    /\ (own -> ctx !! "layout" = Some VUndef)
    /\ (~ own -> ctx !! "layout" = overrides winner loser "layout").
Proof.
  intros Hcreate winner loser own.
  destruct (createTemplate_closure _ _ _ _ _ _ Hcreate)
    as (context & content & frontMatter & Hread & Hfm & ->).
  set (tpl := {| t_file := file; t_page := trimLeft content;
                 t_data := frontMatter ∪ _data t0; t_isLayout := isLayout |}) in *.
  set (d := tplData tpl (VObj callData) preferGlobal).
  assert (Hd : forall k, d !! k = overrides winner loser k).
  { intros k. apply tplData_overrides. }
  exists context, content, frontMatter, (clear_own_layout E file d).
  split; [done|]. split; [done|]. split.
  { intros k. simpl. unfold overrides. rewrite lookup_union.
    by destruct (frontMatter !! k), (_data t0 !! k). }
  split; [done|].
  assert (Hown : own_layout E file d = true <-> own).
  { unfold own_layout, own, get. rewrite <- Hd.
    destruct (d !! "layout") as [[| | | |name| |]|] eqn:Hl; simpl;
      try (split; [done|]; intros (name' & [=] & _)).
    rewrite orb_true_iff, !bool_decide_eq_true. split.
    - intros Hname. by exists name.
    - by intros (name' & [= <-] & Hname). }
  unfold clear_own_layout. destruct (own_layout E file d) eqn:Hcase.
  - repeat split.
    + intros k Hk. by rewrite lookup_insert_ne, Hd.
    + intros _. apply lookup_insert_eq.
    + intros Hnot. destruct Hnot. by apply Hown.
  - repeat split.
    + intros k Hk. apply Hd.
    + intros Ho. apply Hown in Ho. done.
    + intros _. apply Hd.
Qed.

(** The page [index.html] of the concrete site, called with a title of its
    own and one more key, with and without [preferGlobal]. *)
Lemma render_context_precedence_witness :
  let tpl := {| t_file := "/site/index.html"; t_page := "<p>Hi</p>";
                t_data := {[ "title" := VStr "Hi"; "layout" := VStr "main" ]};
                t_isLayout := false |} in
  let callData : gmap string value := {[ "title" := VStr "Call"; "extra" := VNum 1 ]} in
  let stop := fun (layout : value) (content : Content) (isLayout : bool) => ret content in
  (render_with Run.site stop tpl (VObj callData) false (Run.taft false)).1
  = Normal (new_Content "<p>Hi</p>"
              {[ "title" := VStr "Call"; "extra" := VNum 1; "layout" := VStr "main" ]})
  /\ (render_with Run.site stop tpl (VObj callData) true (Run.taft false)).1
     = Normal (new_Content "<p>Hi</p>"
                 {[ "title" := VStr "Hi"; "extra" := VNum 1; "layout" := VStr "main" ]}).
Proof.
  intros tpl callData stop.
  assert (Hcreate : _createTemplate Run.site "/site/index.html" false (Run.taft false)
                    = (Normal (Some tpl), Run.taft false))
    by (vm_compute; reflexivity).
  assert (Hother : forall preferGlobal : bool,
            ~ (exists name,
                 overrides (if preferGlobal then t_data tpl else callData)
                           (if preferGlobal then callData else t_data tpl) "layout"
                 = Some (VStr name)
                 /\ (name = path_basename Run.site "/site/index.html" None
                     \/ name = stripExtname Run.site "/site/index.html"))).
  { intros [] (name & Hname & Hown);
      (assert (name = "main") as -> by (vm_compute in Hname; congruence));
      destruct Hown as [Hown|Hown]; vm_compute in Hown; discriminate. }
  assert (Hctx : forall (preferGlobal : bool) (expected ctx : gmap string value),
            (forall k, expected !! k
                       = overrides (if preferGlobal then t_data tpl else callData)
                                   (if preferGlobal then callData else t_data tpl) k) ->
            (forall k, k <> "layout" ->
                       ctx !! k = overrides (if preferGlobal then t_data tpl else callData)
                                            (if preferGlobal then callData else t_data tpl) k) ->
            ctx !! "layout" = overrides (if preferGlobal then t_data tpl else callData)
                                        (if preferGlobal then callData else t_data tpl) "layout" ->
            ctx = expected).
  { intros preferGlobal expected ctx Hexp Hkeys Hlayout. apply map_eq. intros k.
    rewrite Hexp. destruct (decide (k = "layout")) as [->|Hk]; [done|by apply Hkeys]. }
  split.
  - destruct (render_context_precedence Run.site stop "/site/index.html" false
                (Run.taft false) tpl (Run.taft false) callData false (Run.taft false)
                Hcreate)
      as (context & content & frontMatter & ctx & Hread & _ & _ & -> & Hkeys & _ & Hlayout).
    injection Hread as <- <-.
    rewrite (Hctx false {[ "title" := VStr "Call"; "extra" := VNum 1;
                           "layout" := VStr "main" ]} ctx);
      [vm_compute; reflexivity| |exact Hkeys|exact (Hlayout (Hother false))].
    intros k. rewrite <- (tplData_overrides tpl callData false).
    f_equal; vm_compute; reflexivity.
  - destruct (render_context_precedence Run.site stop "/site/index.html" false
                (Run.taft false) tpl (Run.taft false) callData true (Run.taft false)
                Hcreate)
      as (context & content & frontMatter & ctx & Hread & _ & _ & -> & Hkeys & _ & Hlayout).
    injection Hread as <- <-.
    rewrite (Hctx true {[ "title" := VStr "Hi"; "extra" := VNum 1;
                          "layout" := VStr "main" ]} ctx);
      [vm_compute; reflexivity| |exact Hkeys|exact (Hlayout (Hother true))].
    intros k. rewrite <- (tplData_overrides tpl callData true).
    f_equal; vm_compute; reflexivity.
Defined.

(** C2, as it is stated, fails at the key [layout].  The base data of
    [self.html] has [layout: self.html]; called with [layout: self] and
    without [preferGlobal], the call data overrides the base data on this
    key, and the merged value names the file itself: the context that the
    page is rendered with, and that the Content keeps, has [undefined]
    there, not the value of the call data. *)
Lemma render_context_layout_cleared :
  let callData : gmap string value := {[ "layout" := VStr "self" ]} in
  exists tpl c,
    _createTemplate Run.site "/site/self.html" false (Run.taft false)
    = (Normal (Some tpl), Run.taft false)
    /\ t_data tpl !! "layout" = Some (VStr "self.html")
    /\ callData !! "layout" = Some (VStr "self")
    /\ render Run.site 0 tpl (VObj callData) false (Run.taft false)
       = (Normal c, Run.taft false)
    /\ data_of c !! "layout" = Some VUndef
    /\ data_of c !! "layout" <> callData !! "layout".
Proof.
  intros callData. eexists _, _.
  split; [vm_compute; reflexivity|].
  split; [vm_compute; reflexivity|].
  split; [reflexivity|].
  split; [vm_compute; reflexivity|].
  split; [vm_compute; reflexivity|].
  vm_compute. discriminate.
Qed.

(** C8, as the code has it.  The closure compares the [layout] of the
    merged context with two spellings of the file's own name, its basename
    and its basename without the extension.  When it is one of them, the
    page is rendered with [layout] set to [undefined] and that Content is
    returned as it is: no layout is looked up and none is applied.  When it
    is anything else, the context is left as it is and [_applyLayout] is
    called with that value. *)
Theorem own_layout_cleared_exactly E fuel tpl pageData preferGlobal t :
  let d := tplData tpl pageData preferGlobal in
  let own := get d "layout" = VStr (path_basename E (t_file tpl) None)
             \/ get d "layout" = VStr (stripExtname E (t_file tpl)) in
  (own ->
   get (clear_own_layout E (t_file tpl) d) "layout" = VUndef
   /\ render E fuel tpl pageData preferGlobal t =
      match hb_render E (_helpers t) (partials t) (t_page tpl)
                      (<["layout" := VUndef]> d) with
      | inl e => (Throw e, t)
      | inr out => (Normal (new_Content out (<["layout" := VUndef]> d)), t)
      end)
  /\ (~ own ->
      clear_own_layout E (t_file tpl) d = d
      /\ render E fuel tpl pageData preferGlobal t =
         match hb_render E (_helpers t) (partials t) (t_page tpl) d with
         | inl e => (Throw e, t)
         | inr out =>
             _applyLayout E fuel (get d "layout") (new_Content out d) (t_isLayout tpl) t
         end).
Proof.
  intros d own. split.
  - intros Hown.
    assert (Hclear : clear_own_layout E (t_file tpl) d = <["layout" := VUndef]> d).
    { unfold clear_own_layout, own_layout.
      destruct Hown as [-> | ->].
      - by rewrite bool_decide_eq_true_2.
      - rewrite (bool_decide_eq_true_2
                   (stripExtname E (t_file tpl) = stripExtname E (t_file tpl))) by done.
        by rewrite orb_true_r. }
    assert (Hget : get (<["layout" := VUndef]> d) "layout" = VUndef).
    { unfold get. by rewrite lookup_insert_eq. }
    split; [by rewrite Hclear|].
    unfold render, render_with. fold d. rewrite Hclear.
    destruct (hb_render _ _ _ _ _) as [e|out]; [done|].
    by rewrite applyLayout_unfold, Hget.
  - intros Hnot.
    assert (Hclear : clear_own_layout E (t_file tpl) d = d).
    { unfold clear_own_layout, own_layout.
      destruct (get d "layout") as [| | | |name| |] eqn:Hl; try done.
      rewrite !bool_decide_eq_false_2; [done| |].
      - intros ->. apply Hnot. by right.
      - intros ->. apply Hnot. by left. }
    split; [done|]. unfold render, render_with. fold d. by rewrite Hclear.
Qed.

(** The file [self.html] of the concrete site names itself as its layout;
    called with [layout: self.htm] it does not. *)
Lemma own_layout_cleared_exactly_witness :
  let tpl := {| t_file := "/site/self.html"; t_page := "me";
                t_data := {[ "layout" := VStr "self.html" ]};
                t_isLayout := false |} in
  let callData : gmap string value := {[ "layout" := VStr "self.htm" ]} in
  render Run.site 0 tpl VUndef false (Run.taft false)
  = (Normal (new_Content "me" {[ "layout" := VUndef ]}), Run.taft false)
  /\ clear_own_layout Run.site "/site/self.html" (tplData tpl (VObj callData) false)
     = {[ "layout" := VStr "self.htm" ]}.
Proof.
  intros tpl callData. split.
  - destruct (own_layout_cleared_exactly Run.site 0 tpl VUndef false (Run.taft false))
      as [Hown _].
    destruct Hown as [_ ->].
    + left. vm_compute. reflexivity.
    + vm_compute. reflexivity.
  - destruct (own_layout_cleared_exactly Run.site 0 tpl (VObj callData) false
                (Run.taft false)) as [_ Hother].
    destruct Hother as [Hclear _].
    + intros [Hown|Hown]; vm_compute in Hown; discriminate.
    + change (t_file tpl) with "/site/self.html" in Hclear. rewrite Hclear.
      vm_compute. reflexivity.
Defined.

(** C8, as it is stated, fails on its conclusion: a file can be rendered
    with itself as its layout.  [_getLayout] drops the directory and any
    extension of a layout name, so [plain.hbs] is the layout [plain], which
    is the file [plain.html]; the closure of [plain.html] compares the name
    with [plain.html] and [plain] only and does not clear it.  [build]
    then applies the file to itself: the Content it returns has the [page]
    key that only [_applyLayout] sets, and [plain.html] is the only layout
    there is. *)
Lemma own_layout_other_spelling_applied :
  let t := (layouts Run.site ["/site/plain.html"] (new_Taft None false false)).2 in
  let callData : gmap string value := {[ "layout" := VStr "plain.hbs" ]} in
  layouts_names t = ["plain"]
  /\ (exists tpl,
        _createTemplate Run.site "/site/plain.html" false t = (Normal (Some tpl), t)
        /\ clear_own_layout Run.site "/site/plain.html" (tplData tpl (VObj callData) false)
             !! "layout" = Some (VStr "plain.hbs"))
  /\ (exists layout t1,
        _getLayout Run.site (VStr "plain.hbs") t = (Normal (Some layout), t1)
        /\ t_file layout = "/site/plain.html")
  /\ (exists c t2,
        build Run.site 1 "plain.html" (VObj callData) t = (Normal (Some c), t2)
        /\ body c = "plain"
        /\ is_Some (data_of c !! "page")).
Proof.
  intros t callData.
  split; [vm_compute; reflexivity|].
  split.
  { eexists. split; [vm_compute; reflexivity|]. vm_compute. reflexivity. }
  split.
  { eexists _, _. split; [vm_compute; reflexivity|]. vm_compute. reflexivity. }
  eexists _, _. split; [vm_compute; reflexivity|].
  split; [vm_compute; reflexivity|].
  vm_compute. eexists. reflexivity.
Qed.

(** ** The layout registry *)

Lemma LayoutMap_get_None {V} k (m : list (string * V)) :
  LayoutMap.has k m = false -> LayoutMap.get k m = None.
Proof.
  unfold LayoutMap.has. rewrite bool_decide_eq_false.
  induction m as [|[k' v] m IH]; [done|]. simpl. intros Hk.
  rewrite bool_decide_eq_false_2.
  - apply IH. intros ?. apply Hk. by right.
  - intros ->. apply Hk. by left.
Qed.

(** C9. A layout name that the registry does not have, after the extension
    is dropped, makes [_getLayout] write a diagnostic and return nothing
    without throwing, and makes [_applyLayout] return the content it was
    given. *)
Theorem missing_layout_is_not_fatal E fuel name content isLayout t :
  let key := if bool_decide (path_extname E name = "") then name
             else stripExtname E name in
  LayoutMap.has key (_layouts t) = false ->
  _getLayout E (VStr name) t
  = (Normal None, set_console (console t ++ ["could not find layout: " +:+ key]) t)
  /\ (_applyLayout E fuel (VStr name) content isLayout t).1 = Normal content.
Proof.
  intros key Hkey.
  assert (Hget : _getLayout E (VStr name) t
          = (Normal None,
             set_console (console t ++ ["could not find layout: " +:+ key]) t)).
  { unfold _getLayout. fold key. by rewrite (LayoutMap_get_None _ _ Hkey). }
  split; [done|].
  rewrite applyLayout_unfold. destruct (truthy (VStr name)); [|done]. simpl.
  unfold unregisterPartial. erewrite try_catch_finally_normal; [done|].
  by erewrite bind_normal by exact Hget.
Qed.

(** On the concrete site no layout is called [missing]. *)
Lemma missing_layout_is_not_fatal_witness :
  let page := new_Content "<p>Hi</p>" ∅ in
  _getLayout Run.site (VStr "missing.html") (Run.taft false)
  = (Normal None,
     set_console ["could not find layout: missing"] (Run.taft false))
  /\ (_applyLayout Run.site 1 (VStr "missing.html") page false (Run.taft false)).1
     = Normal page.
Proof.
  intros page.
  apply (missing_layout_is_not_fatal Run.site 1 "missing.html" page false (Run.taft false)).
  vm_compute. reflexivity.
Defined.

(** ** [_createTemplate] and [build] *)

Lemma unpublished_true context :
  get context "published" = VBool false \/ get context "published" = VNum 0 ->
  unpublished context = true.
Proof. unfold unpublished. by intros [-> | ->]. Qed.

Lemma createTemplate_unpublished E file isLayout context content t :
  gm_read E file = inr (context, content) ->
  unpublished context = true ->
  _createTemplate E file isLayout t = (Normal None, t).
Proof. intros Hread Hpub. unfold _createTemplate. by rewrite Hread, Hpub. Qed.

Lemma createTemplate_throws E file isLayout e t :
  gm_read E file = inl e ->
  _createTemplate E file isLayout t = (Throw e, t).
Proof. intros Hread. unfold _createTemplate. by rewrite Hread. Qed.

Lemma createTemplate_isLayout E file isLayout t tpl t' :
  _createTemplate E file isLayout t = (Normal (Some tpl), t') ->
  t_isLayout tpl = isLayout.
Proof.
  unfold _createTemplate. destruct (gm_read E file) as [e|[context content]]; [done|].
  destruct (unpublished context); [done|]. unfold bind.
  destruct (assign_layout file isLayout context t) as [[context'| |] t1];
    [|intros [=]..].
  by intros [= <- <-].
Qed.

Lemma debug_normal msg t : exists t', debug msg t = (Normal tt, t').
Proof. unfold debug, err, modify, ret. destruct (verbose t && negb (silent t)); eauto. Qed.

Lemma build_unpublished E fuel file data context content t :
  gm_read E (path_resolve E file) = inr (context, content) ->
  unpublished context = true ->
  build E fuel file data t = (Normal None, (debug ("ignoring " +:+ file) t).2).
Proof.
  intros Hread Hpub. unfold build, build_try, try_catch.
  unfold bind at 1. unfold bind at 1.
  rewrite (createTemplate_unpublished _ _ _ _ _ _ Hread Hpub).
  unfold bind. destruct (debug_normal ("ignoring " +:+ file) t) as [t' ->]. done.
Qed.

(** what [build] does with an error thrown inside its [try] block *)
Lemma build_catch E fuel file data t e t1 :
  build_try E fuel file data t = (Throw e, t1) ->
  build E fuel file data t =
  if bool_decide (code e = Some "EISDIR") then (Normal None, t1)
  else (Normal (Some (set_source empty_Content file)),
        set_console (console t1 ++ ["error building " +:+ file +:+ ": " +:+ message e]) t1).
Proof.
  intros Htry. unfold build, try_catch. unfold bind at 1. rewrite Htry.
  by destruct (bool_decide (code e = Some "EISDIR")).
Qed.

Lemma build_not_throw E fuel file data t e t' :
  build E fuel file data t <> (Throw e, t').
Proof.
  unfold build, try_catch. unfold bind at 1.
  destruct (build_try E fuel file data t) as [[[[]|c]|e0|] t1]; [done|done| |done].
  by destruct (bool_decide (code e0 = Some "EISDIR")).
Qed.

(** C5. A file whose front matter has [published] equal to [false] or to
    [0] yields no template, whether it is compiled as a page or as a layout;
    [build] on it returns [undefined], which is no Content, and a layout
    registered under such a file resolves to nothing. *)
Theorem unpublished_file_is_skipped E fuel file data isLayout context content t :
  get context "published" = VBool false \/ get context "published" = VNum 0 ->
  (gm_read E file = inr (context, content) ->
   _createTemplate E file isLayout t = (Normal None, t))
  /\ (gm_read E (path_resolve E file) = inr (context, content) ->
      (build E fuel file data t).1 = Normal None
      /\ forall c, (build E fuel file data t).1 <> Normal (Some c))
  /\ (forall name,
        gm_read E file = inr (context, content) ->
        path_extname E name = "" ->
        LayoutMap.get name (_layouts t) = Some (Path file) ->
        (_getLayout E (VStr name) t).1 = Normal None).
Proof.
  intros Hpub%unpublished_true. split; [|split].
  - intros Hread. by apply createTemplate_unpublished with context content.
  - intros Hread. rewrite (build_unpublished _ _ _ _ _ _ _ Hread Hpub). done.
  - intros name Hread Hext Hreg. unfold _getLayout.
    rewrite bool_decide_eq_true_2, Hreg by done.
    erewrite bind_normal by by apply createTemplate_unpublished with context content.
    done.
Qed.

(** On the concrete site: the page [draft.html] and the layout [hidden]. *)
Lemma unpublished_file_is_skipped_witness :
  (build Run.site 3 "draft.html" VUndef (Run.taft false)).1 = Normal None
  /\ (_getLayout Run.site (VStr "hidden") (Run.taft false)).1 = Normal None.
Proof.
  split.
  - apply (unpublished_file_is_skipped Run.site 3 "draft.html" VUndef false
             {[ "published" := VBool false ]} "draft" (Run.taft false)).
    + left. reflexivity.
    + reflexivity.
  - apply (unpublished_file_is_skipped Run.site 3 "/site/layouts/hidden.html" VUndef true
             {[ "published" := VNum 0 ]} ">[hidden] " (Run.taft false)).
    + right. reflexivity.
    + reflexivity.
    + reflexivity.
    + reflexivity.
Defined.

(** C10. [build] never throws.  It returns [undefined] for a file that is
    not published and for an error whose code is [EISDIR], as reading a
    directory gives; any other error thrown while the file is decoded or
    rendered is written to the console and [build] returns an empty Content
    whose [source] is the file it was given. *)
Theorem build_never_throws E fuel file data t :
  (forall e t', build E fuel file data t <> (Throw e, t'))
  /\ (forall context content,
        gm_read E (path_resolve E file) = inr (context, content) ->
        get context "published" = VBool false \/ get context "published" = VNum 0 ->
        (build E fuel file data t).1 = Normal None)
  /\ (forall e,
        gm_read E (path_resolve E file) = inl e ->
        code e = Some "EISDIR" ->
        build E fuel file data t = (Normal None, t))
  /\ (forall e t1,
        build_try E fuel file data t = (Throw e, t1) ->
        code e <> Some "EISDIR" ->
        build E fuel file data t
        = (Normal (Some {| body := ""; data_of := ∅; source := Some file |}),
           set_console
             (console t1 ++ ["error building " +:+ file +:+ ": " +:+ message e]) t1)).
Proof.
  split; [|split; [|split]].
  - intros e t'. apply build_not_throw.
  - intros context content Hread Hpub%unpublished_true.
    by rewrite (build_unpublished _ _ _ _ _ _ _ Hread Hpub).
  - intros e Hread Hcode.
    rewrite (build_catch E fuel file data t e t).
    + by rewrite bool_decide_eq_true_2.
    + unfold build_try. by erewrite bind_throw by by apply createTemplate_throws.
  - intros e t1 Htry Hcode.
    rewrite (build_catch _ _ _ _ _ _ _ Htry). by rewrite bool_decide_eq_false_2.
Qed.

(** On the concrete site: a draft, a directory, a file that does not exist
    and a page whose layout fails. *)
Lemma build_never_throws_witness :
  (build Run.site 3 "draft.html" VUndef (Run.taft false)).1 = Normal None
  /\ build Run.site 3 "layouts" VUndef (Run.taft false) = (Normal None, Run.taft false)
  /\ build Run.site 3 "nowhere.html" VUndef (Run.taft false)
     = (Normal (Some {| body := ""; data_of := ∅; source := Some "nowhere.html" |}),
        set_console ["error building nowhere.html: ENOENT: no such file or directory"]
                    (Run.taft false))
  /\ (build Run.site 3 "broken.html" VUndef (Run.taft false)).1
     = Normal (Some {| body := ""; data_of := ∅; source := Some "broken.html" |}).
Proof.
  split; [|split; [|split]].
  - destruct (build_never_throws Run.site 3 "draft.html" VUndef (Run.taft false))
      as (_ & H & _ & _).
    apply (H {[ "published" := VBool false ]} "draft"); [reflexivity|].
    left. reflexivity.
  - destruct (build_never_throws Run.site 3 "layouts" VUndef (Run.taft false))
      as (_ & _ & H & _).
    apply (H {| code := Some "EISDIR";
                message := "EISDIR: illegal operation on a directory, read" |});
      reflexivity.
  - destruct (build_never_throws Run.site 3 "nowhere.html" VUndef (Run.taft false))
      as (_ & _ & _ & H).
    apply (H {| code := Some "ENOENT"; message := "ENOENT: no such file or directory" |}
             (Run.taft false)); [reflexivity|discriminate].
  - destruct (build_never_throws Run.site 3 "broken.html" VUndef (Run.taft false))
      as (_ & _ & _ & H).
    rewrite (H (Error "unable to render layout bad (helper failed)")
               (build_try Run.site 3 "broken.html" VUndef (Run.taft false)).2);
      [reflexivity| |discriminate].
    vm_compute. reflexivity.
Defined.

(** ** Errors of a layout *)

(** When the closure of the resolved layout throws, [_applyLayout] throws
    the wrapped error, and [body] is unregistered by then. *)
Lemma applyLayout_wraps E fuel layout content isLayout t layout_template t1 e t2 :
  truthy layout = true ->
  _getLayout E layout t = (Normal (Some layout_template), t1) ->
  render E fuel layout_template
         (VObj (data_of (if negb isLayout then set_page content else content))) true
         (set_partials (<["body" := body content]> (partials t1)) t1)
  = (Throw e, t2) ->
  _applyLayout E (S fuel) layout content isLayout t
  = (Throw (layout_error layout e), set_partials (delete "body" (partials t2)) t2).
Proof.
  intros Hl Hget Hrender. rewrite applyLayout_unfold, Hl. simpl.
  unfold unregisterPartial.
  apply (try_catch_finally_rethrow _ (layout_error layout)
           (fun t => set_partials (delete "body" (partials t)) t)).
  erewrite bind_normal by exact Hget.
  unfold registerPartial. erewrite bind_normal by reflexivity.
  exact Hrender.
Qed.

(** C4, as the code has it.  When a page renders and the closure of its
    layout throws, [_applyLayout] throws a new error whose message carries
    the layout and the message of the original error; [build] catches it,
    writes it to the console and returns an empty Content whose [source] is
    the file. *)
Theorem layout_error_wrapped_then_logged
    E fuel file data t tpl t0 out layout_template t1 e t2 :
  let t0' := (debug ("building: " +:+ file) t0).2 in
  let d := clear_own_layout E (t_file tpl) (tplData tpl data false) in
  let page := new_Content out d in
  let wrapped := layout_error (get d "layout") e in
  let t3 := set_partials (delete "body" (partials t2)) t2 in
  _createTemplate E (path_resolve E file) false t = (Normal (Some tpl), t0) ->
  hb_render E (_helpers t0') (partials t0') (t_page tpl) d = inr out ->
  truthy (get d "layout") = true ->
  _getLayout E (get d "layout") t0' = (Normal (Some layout_template), t1) ->
  render E fuel layout_template (VObj (data_of (set_page page))) true
         (set_partials (<["body" := out]> (partials t1)) t1)
  = (Throw e, t2) ->
  _applyLayout E (S fuel) (get d "layout") page false t0' = (Throw wrapped, t3)
  /\ message wrapped
     = "unable to render layout " +:+ to_string (get d "layout")
       +:+ " (" +:+ message e +:+ ")"
  /\ build E (S fuel) file data t
     = (Normal (Some {| body := ""; data_of := ∅; source := Some file |}),
        set_console
          (console t3 ++ ["error building " +:+ file +:+ ": " +:+ message wrapped]) t3).
Proof.
  intros t0' d page wrapped t3 Hcreate Hpage Hl Hget Hrender.
  assert (Hwrap : _applyLayout E (S fuel) (get d "layout") page false t0'
                  = (Throw wrapped, t3)).
  { by apply applyLayout_wraps with layout_template t1. }
  split; [done|]. split; [done|].
  rewrite (build_catch E (S fuel) file data t wrapped t3); [done|].
  unfold build_try. erewrite bind_normal by exact Hcreate.
  destruct (debug_normal ("building: " +:+ file) t0) as [t0'' Hdebug].
  erewrite bind_normal by exact Hdebug.
  assert (t0'' = t0') as -> by (unfold t0'; by rewrite Hdebug).
  erewrite bind_throw; [done|].
  unfold render, render_with. fold d. rewrite Hpage.
  rewrite (createTemplate_isLayout _ _ _ _ _ _ Hcreate). exact Hwrap.
Qed.

(** On the concrete site the page [broken.html] uses the layout [bad],
    which throws while it renders. *)
Lemma layout_error_wrapped_then_logged_witness :
  (build Run.site 1 "broken.html" VUndef (Run.taft false)).1
  = Normal (Some {| body := ""; data_of := ∅; source := Some "broken.html" |})
  /\ console (build Run.site 1 "broken.html" VUndef (Run.taft false)).2
     = ["error building broken.html: unable to render layout bad (helper failed)"].
Proof.
  pose (bad := {| t_file := "/site/layouts/bad.html"; t_page := "!helper failed";
                  t_data := ∅; t_isLayout := true |}).
  pose (t1 := set_layouts
                (LayoutMap.set "bad" (Compiled bad) (_layouts (Run.taft false)))
                (Run.taft false)).
  destruct (layout_error_wrapped_then_logged Run.site 0 "broken.html" VUndef
              (Run.taft false)
              {| t_file := "/site/broken.html"; t_page := "<p>broken</p>";
                 t_data := {[ "layout" := VStr "bad" ]}; t_isLayout := false |}
              (Run.taft false) "<p>broken</p>" bad t1 (Error "helper failed")
              (set_partials {[ "body" := "<p>broken</p>" ]} t1))
    as (_ & _ & ->); try (vm_compute; reflexivity).
  split; vm_compute; reflexivity.
Defined.

(** C4, as it is stated, fails: the error of the layout [bad] reaches
    [build], and [build] returns to its caller instead of throwing. *)
Lemma build_catches_layout_error :
  let page := new_Content "<p>broken</p>" {[ "layout" := VStr "bad" ]} in
  (_applyLayout Run.site 1 (VStr "bad") page false (Run.taft false)).1
  = Throw (Error "unable to render layout bad (helper failed)")
  /\ (build Run.site 1 "broken.html" VUndef (Run.taft false)).1
     = Normal (Some {| body := ""; data_of := ∅; source := Some "broken.html" |})
  /\ ~ (exists e, (build Run.site 1 "broken.html" VUndef (Run.taft false)).1 = Throw e).
Proof.
  intros page. split; [|split].
  - vm_compute. reflexivity.
  - vm_compute. reflexivity.
  - intros [e He]. vm_compute in He. discriminate.
Qed.

(** ** The layout registry and the default layout *)

Lemma set_console_nil t : set_console (console t ++ []) t = t.
Proof. destruct t. unfold set_console. simpl. by rewrite app_nil_r. Qed.

Lemma debug_run msg t :
  debug msg t
  = (Normal tt,
     set_console (console t ++ if verbose t && negb (silent t) then [msg] else []) t).
Proof.
  unfold debug, err, modify, ret.
  destruct (verbose t && negb (silent t)); [done|]. by rewrite set_console_nil.
Qed.

Lemma forEach_modify {A} (f : A -> Taft -> Taft) l t :
  forEach (fun x => modify (f x)) l t = (Normal tt, foldl (fun t x => f x t) t l).
Proof.
  revert t. induction l as [|x l IH]; intros t; [done|].
  simpl. unfold bind, modify at 1. apply IH.
Qed.

Lemma foldl_set_layouts E items t :
  foldl (fun t item =>
           set_layouts (LayoutMap.set (stripExtname E item) (Path item) (_layouts t)) t)
        t items
  = set_layouts
      (foldl (fun m item => LayoutMap.set (stripExtname E item) (Path item) m)
             (_layouts t) items) t.
Proof.
  revert t. induction items as [|item items IH]; intros t; simpl.
  - by destruct t.
  - rewrite IH. by destruct t.
Qed.

Lemma layouts_run E args t :
  exists t',
    layouts E args t = (Normal tt, t')
    /\ _layouts t' = registered E args (_layouts t)
    /\ _defaultLayout t' = default_after E args t
    /\ _options_defaultLayout t' = _options_defaultLayout t.
Proof.
  unfold layouts.
  erewrite bind_normal by apply forEach_modify.
  cbv beta. rewrite foldl_set_layouts. fold (registered E args (_layouts t)).
  erewrite bind_normal by apply debug_run.
  unfold default_after.
  set (m := registered E args (_layouts t)).
  set (t1 := set_console _ _).
  assert (Hm : _layouts t1 = m) by done.
  assert (Hd : _defaultLayout t1 = _defaultLayout t) by done.
  assert (Ho : _options_defaultLayout t1 = _options_defaultLayout t) by done.
  clearbody t1.
  assert (exists t2, (fun t : Taft =>
     if bool_decide (LayoutMap.size (_layouts t) = 1) then
       match _layouts t with
       | (k, _) :: _ => modify (set_defaultLayout (Some k)) t
       | [] => ret tt t
       end
     else
       match _options_defaultLayout t with
       | Some d => if truthy (VStr d)
                   then modify (set_defaultLayout (Some (stripExtname E d))) t
                   else ret tt t
       | None => ret tt t
       end) t1 = (Normal tt, t2)
     /\ _layouts t2 = m
     /\ _options_defaultLayout t2 = _options_defaultLayout t
     /\ _defaultLayout t2 =
        (if bool_decide (LayoutMap.size m = 1) then
           match m with (k, _) :: _ => Some k | [] => _defaultLayout t end
         else match _options_defaultLayout t with
              | Some d => if truthy (VStr d) then Some (stripExtname E d)
                          else _defaultLayout t
              | None => _defaultLayout t
              end)) as (t2 & Hstep & Hm2 & Ho2 & Hd2).
  { cbv beta. rewrite Hm, Ho. unfold modify, ret.
    destruct (bool_decide (LayoutMap.size m = 1)).
    - destruct m as [|[k v] m']; eexists; (split; [reflexivity|]); done.
    - destruct (_options_defaultLayout t) as [d|];
        [destruct (truthy (VStr d))|]; eexists; (split; [reflexivity|]); done. }
  erewrite bind_normal by exact Hstep.
  destruct (_defaultLayout t2) as [d|] eqn:Hd2'.
  - destruct (truthy (VStr d)).
    + rewrite debug_run. eexists. split; [done|]. simpl. by rewrite Hm2, Hd2', Ho2.
    + eexists. split; [done|]. by rewrite Hm2, Hd2', Ho2.
  - eexists. split; [done|]. by rewrite Hm2, Hd2', Ho2.
Qed.

Lemma LayoutMap_set_keys {V} k (v : V) m k' :
  k' ∈ LayoutMap.keys m -> k' ∈ LayoutMap.keys (LayoutMap.set k v m).
Proof.
  unfold LayoutMap.keys. induction m as [|[k0 v0] m IH]; simpl.
  - by intros ?%elem_of_nil.
  - intros [->|Hin]%elem_of_cons; case_bool_decide; simplify_eq/=.
    + by left.
    + by left.
    + right. done.
    + right. by apply IH.
Qed.

Lemma registered_keys E args m k :
  k ∈ LayoutMap.keys m -> k ∈ LayoutMap.keys (registered E args m).
Proof.
  unfold registered. generalize (mergeGlob E args). intros items.
  revert m. induction items as [|item items IH]; intros m Hk; [done|].
  simpl. apply IH. by apply LayoutMap_set_keys.
Qed.

(** The invariant holds when the object is made, and [layouts] and
    [defaultLayout] keep it when no option overrides the default. *)
Lemma default_registered_new o silent verbose : default_registered (new_Taft o silent verbose).
Proof. by intros d. Qed.

Lemma default_registered_layouts E args t :
  _options_defaultLayout t = None ->
  default_registered t ->
  default_registered (layouts E args t).2.
Proof.
  intros Hopt Hinv d.
  destruct (layouts_run E args t) as (t' & -> & Hm & Hd & _). simpl.
  unfold layouts_names. rewrite Hm, Hd. unfold default_after. rewrite Hopt.
  case_bool_decide as Hsize.
  - destruct (registered E args (_layouts t)) as [|[k v] m] eqn:Hreg; [done|].
    intros [= <-]. by left.
  - intros Hdef. apply registered_keys. by apply Hinv.
Qed.

Lemma default_registered_defaultLayout E layout t :
  default_registered t ->
  default_registered (defaultLayout E layout t).2.
Proof.
  intros Hinv d. unfold defaultLayout.
  case_bool_decide as Hin; simpl.
  - by intros [= <-].
  - unfold info, err, modify, ret. destruct (silent t); simpl; apply Hinv.
Qed.

(** C6. After [layouts(...)], a registry that holds exactly one layout has
    that layout as the default; and a default that is a registered layout
    is still the default after more layouts are registered, as long as the
    caller gave no [defaultLayout] option to override it. *)
Theorem default_layout_auto_and_stable E args t :
  let t' := (layouts E args t).2 in
  (layouts E args t).1 = Normal tt
  /\ (forall k, LayoutMap.keys (_layouts t') = [k] -> _defaultLayout t' = Some k)
  /\ (forall d,
        _defaultLayout t = Some d ->
        d ∈ LayoutMap.keys (_layouts t) ->
        _options_defaultLayout t = None \/ _options_defaultLayout t = Some "" ->
        _defaultLayout t' = Some d).
Proof.
  destruct (layouts_run E args t) as (t' & -> & Hm & Hd & Ho). simpl.
  split; [done|]. split.
  - intros k Hk. rewrite Hd. unfold default_after. rewrite <- Hm.
    destruct (_layouts t') as [|[k0 v0] [|? ?]]; simplify_eq/=. done.
  - intros d Hdef Hin Hopt. rewrite Hd. unfold default_after.
    apply (registered_keys E args) in Hin.
    case_bool_decide as Hsize.
    + destruct (registered E args (_layouts t)) as [|[k0 v0] [|? ?]]; simplify_eq/=.
      apply list_elem_of_singleton in Hin. by subst.
    + by destruct Hopt as [-> | ->].
Qed.

(** On the concrete site: one layout is registered, then two more. *)
Lemma default_layout_auto_and_stable_witness :
  let one := (layouts Run.site ["/site/layouts/main.html"] (new_Taft None false false)).2 in
  let three := (layouts Run.site ["/site/layouts/bad.html"; "/site/layouts/hidden.html"]
                        one).2 in
  _defaultLayout one = Some "main" /\ _defaultLayout three = Some "main".
Proof.
  intros one three. split.
  - destruct (default_layout_auto_and_stable Run.site ["/site/layouts/main.html"]
                (new_Taft None false false)) as (_ & H & _).
    apply H. reflexivity.
  - destruct (default_layout_auto_and_stable Run.site
                ["/site/layouts/bad.html"; "/site/layouts/hidden.html"] one)
      as (_ & _ & H).
    apply H.
    + reflexivity.
    + vm_compute. apply list_elem_of_here.
    + left. reflexivity.
Defined.

(** The option overrides: with [defaultLayout] given to the constructor,
    a call of [layouts] that leaves more or fewer than one layout sets the
    default to that option, registered or not. *)
Lemma layouts_applies_option E args t d :
  _options_defaultLayout t = Some d ->
  truthy (VStr d) = true ->
  LayoutMap.size (registered E args (_layouts t)) <> 1 ->
  _defaultLayout (layouts E args t).2 = Some (stripExtname E d).
Proof.
  intros Hopt Htruthy Hsize.
  destruct (layouts_run E args t) as (t' & -> & _ & Hd & _). simpl.
  rewrite Hd. unfold default_after. by rewrite bool_decide_eq_false_2, Hopt, Htruthy.
Qed.

Lemma defaultLayout_run E layout t :
  let name := stripExtname E layout in
  defaultLayout E layout t =
  if bool_decide (name ∈ layouts_names t)
  then (Normal tt, set_defaultLayout (Some name) t)
  else (Normal tt,
        if silent t then t
        else set_console
               (console t ++ ["Not setting default layout. Could not find: " +:+ name]) t).
Proof.
  intros name. unfold defaultLayout. fold name.
  destruct (bool_decide (name ∈ layouts_names t)); [done|].
  unfold info. by destruct (silent t).
Qed.

(** C7, as the code has it.  [defaultLayout(name)] sets the default to
    the name, without its extension, exactly when that name is registered;
    otherwise it returns without an error, the default is what it was, and
    the diagnostic is written unless the object is silent. *)
Theorem defaultLayout_requires_registered E layout t :
  let name := stripExtname E layout in
  let t' := (defaultLayout E layout t).2 in
  (defaultLayout E layout t).1 = Normal tt
  /\ (name ∈ layouts_names t -> _defaultLayout t' = Some name)
  /\ (name ∉ layouts_names t ->
      _defaultLayout t' = _defaultLayout t
      /\ console t' =
         if silent t then console t
         else console t ++ ["Not setting default layout. Could not find: " +:+ name]).
Proof.
  intros name t'. unfold t'. rewrite defaultLayout_run. fold name.
  case_bool_decide as Hin.
  - split; [done|]. split; [done|]. intros Hnot. by destruct Hnot.
  - split; [done|]. split; [intros Hin'; by destruct Hin|].
    intros _. simpl. by destruct (silent t).
Qed.

(** On the concrete site: [bad] is registered, [nope] is not. *)
Lemma defaultLayout_requires_registered_witness :
  _defaultLayout (defaultLayout Run.site "bad.html" (Run.taft false)).2 = Some "bad"
  /\ _defaultLayout (defaultLayout Run.site "nope" (Run.taft false)).2 = None
  /\ console (defaultLayout Run.site "nope" (Run.taft false)).2
     = ["Not setting default layout. Could not find: nope"].
Proof.
  destruct (defaultLayout_requires_registered Run.site "bad.html" (Run.taft false))
    as (_ & H1 & _).
  destruct (defaultLayout_requires_registered Run.site "nope" (Run.taft false))
    as (_ & _ & H2).
  split.
  - apply H1. vm_compute. apply list_elem_of_further, list_elem_of_here.
  - apply H2. vm_compute. intros H.
    repeat (apply elem_of_cons in H as [H|H]; [discriminate H|]).
    by apply elem_of_nil in H.
Defined.

(** C7, as it is stated, fails.  On a silent object the name that is not
    registered is refused without any diagnostic; and the option given to
    the constructor becomes the default in [layouts] without being looked
    up in the registry, as in
    [new Taft({defaultLayout: 'nope', layouts: []})]. *)
Lemma defaultLayout_silent_and_option_unchecked :
  ("nope" ∉ layouts_names (Run.taft true))
  /\ defaultLayout Run.site "nope" (Run.taft true) = (Normal tt, Run.taft true)
  /\ console (defaultLayout Run.site "nope" (Run.taft true)).2 = []
  /\ layouts_names (layouts Run.site [] (new_Taft (Some "nope") false false)).2 = []
  /\ _defaultLayout (layouts Run.site [] (new_Taft (Some "nope") false false)).2
     = Some "nope".
Proof.
  split; [|repeat split; vm_compute; reflexivity].
  vm_compute. intros H.
  repeat (apply elem_of_cons in H as [H|H]; [discriminate H|]).
  by apply elem_of_nil in H.
Qed.

(** ** The data store *)

Lemma data_callback_merges arg (d : gmap string value) t :
  reaches_merge arg d ->
  exists t', data_callback arg (inr d) t = (Normal tt, t') /\ _data t' = d ∪ _data t.
Proof.
  intros Hsrc. unfold data_callback, try_catch.
  assert (Hmerge : forall t0 : Taft,
            modify (fun t => set_data (merge [VObj (_data t); VObj d]) t) t0
            = (Normal tt, set_data (d ∪ _data t0) t0)).
  { intros t0. unfold modify. by rewrite merge_onto. }
  destruct (Object_keys d) as [|k [|k' ks]] eqn:Hkeys.
  - erewrite bind_normal by reflexivity. rewrite Hmerge. eauto.
  - erewrite bind_normal by apply debug_run. rewrite Hmerge. eauto.
  - destruct arg as [s|o].
    + erewrite bind_normal by apply debug_run. rewrite Hmerge. eauto.
    + simpl in Hsrc. rewrite Hkeys in Hsrc. simpl in Hsrc. lia.
Qed.

Lemma data_two_sources E A B (a b : gmap string value) t :
  Data_parse E A = [inr a] ->
  Data_parse E B = [inr b] ->
  reaches_merge A a ->
  reaches_merge B b ->
  exists t', data E [A; B] t = (Normal tt, t') /\ _data t' = b ∪ (a ∪ _data t).
Proof.
  intros HA HB Ha Hb. unfold data. cbn [forEach]. rewrite HA, HB. cbn [forEach].
  destruct (data_callback_merges A a t Ha) as (t1 & H1 & Hd1).
  destruct (data_callback_merges B b t1 Hb) as (t2 & H2 & Hd2).
  exists t2. split; [|by rewrite Hd2, Hd1].
  unfold bind. rewrite H1. unfold ret at 1. by rewrite H2.
Qed.

(** C3, as the code has it.  For two sources added in the order A, B, each
    decoded to one mapping and each a string or a mapping of at most one
    key: a top-level key of B resolves to the value B gives it, whatever A
    gave it and also when both values are mappings; a key that only A has
    keeps the value of A; and every other key of the store is kept. *)
Theorem data_later_source_wins E A B (a b : gmap string value) t :
  Data_parse E A = [inr a] ->
  Data_parse E B = [inr b] ->
  reaches_merge A a ->
  reaches_merge B b ->
  let t' := (data E [A; B] t).2 in
  (data E [A; B] t).1 = Normal tt
  /\ forall k,
       (forall v, b !! k = Some v -> _data t' !! k = Some v)
       /\ (forall v, b !! k = None -> a !! k = Some v -> _data t' !! k = Some v)
       /\ (b !! k = None -> a !! k = None -> _data t' !! k = _data t !! k).
Proof.
  intros HA HB Ha Hb.
  destruct (data_two_sources E A B a b t HA HB Ha Hb) as (t' & -> & Hd). simpl.
  split; [done|]. intros k. rewrite Hd. split; [|split].
  - intros v Hk. by apply lookup_union_Some_l.
  - intros v Hb' Ha'. rewrite lookup_union_r by done. by apply lookup_union_Some_l.
  - intros Hb' Ha'. by rewrite !lookup_union_r.
Qed.

(** Two sources of the concrete site that both give the key [a] a mapping. *)
Lemma data_later_source_wins_witness :
  let A := ArgObj {[ "a" := VObj {[ "x" := VNum 1 ]} ]} in
  let B := ArgObj {[ "a" := VObj {[ "y" := VNum 2 ]} ]} in
  _data (data Run.site [A; B] (new_Taft None false false)).2 !! "a"
  = Some (VObj {[ "y" := VNum 2 ]}).
Proof.
  intros A B.
  destruct (data_later_source_wins Run.site A B
              {[ "a" := VObj {[ "x" := VNum 1 ]} ]}
              {[ "a" := VObj {[ "y" := VNum 2 ]} ]}
              (new_Taft None false false)) as (_ & H).
  - reflexivity.
  - reflexivity.
  - vm_compute. lia.
  - vm_compute. lia.
  - destruct (H "a") as [Ha _]. apply Ha. reflexivity.
Defined.

(** C3, as it is stated, fails on its last part: when A and B both give the
    key [a] a mapping, the store holds the mapping of B, and the key [x]
    that only the mapping of A had is gone. *)
Lemma data_nested_mapping_replaced :
  let A := ArgObj {[ "a" := VObj {[ "x" := VNum 1 ]} ]} in
  let B := ArgObj {[ "a" := VObj {[ "y" := VNum 2 ]} ]} in
  let store := _data (data Run.site [A; B] (new_Taft None false false)).2 in
  store !! "a" = Some (VObj {[ "y" := VNum 2 ]})
  /\ (forall nested, store !! "a" = Some (VObj nested) -> nested !! "x" = None).
Proof.
  intros A B store.
  assert (H : store !! "a" = Some (VObj {[ "y" := VNum 2 ]})) by (vm_compute; reflexivity).
  split; [exact H|]. intros nested Hn. rewrite H in Hn. by simplify_eq.
Qed.

(** An object with two keys or more is not merged at all: the debug line
    of the callback calls [argument.substr], which an object does not have,
    and the [catch] block ends the callback before [merge]. *)
Lemma data_object_of_two_keys_dropped :
  data Run.site [ArgObj {[ "a" := VNum 1; "b" := VNum 2 ]}] (new_Taft None false false)
  = (Normal tt, set_console ["error reading "] (new_Taft None false false)).
Proof. vm_compute. reflexivity. Qed.

(** * More of [index.js] *)

(** ** The Map of layouts *)

Lemma LayoutMap_get_set_eq {V} k (v : V) m :
  LayoutMap.get k (LayoutMap.set k v m) = Some v.
Proof.
  induction m as [|[k' v'] m IH]; simpl.
  - by rewrite bool_decide_eq_true_2.
  - case_bool_decide as Hk; simpl.
    + by rewrite bool_decide_eq_true_2.
    + by rewrite bool_decide_eq_false_2.
Qed.

Lemma LayoutMap_get_set_ne {V} k k' (v : V) m :
  k <> k' -> LayoutMap.get k' (LayoutMap.set k v m) = LayoutMap.get k' m.
Proof.
  intros Hne. induction m as [|[k0 v0] m IH]; simpl.
  - by rewrite bool_decide_eq_false_2.
  - case_bool_decide as Hk; simpl.
    + subst k0. by rewrite !bool_decide_eq_false_2.
    + by rewrite IH.
Qed.

Lemma LayoutMap_get_Some_keys {V} k (v : V) m :
  LayoutMap.get k m = Some v -> k ∈ LayoutMap.keys m.
Proof.
  unfold LayoutMap.keys. induction m as [|[k0 v0] m IH]; simpl; [done|].
  case_bool_decide as Hk.
  - intros _. subst. by left.
  - intros H. right. by apply IH.
Qed.

(** setting a key that the Map has keeps the keys and their order *)
Lemma LayoutMap_keys_set_known {V} k (v : V) m :
  k ∈ LayoutMap.keys m -> LayoutMap.keys (LayoutMap.set k v m) = LayoutMap.keys m.
Proof.
  unfold LayoutMap.keys. induction m as [|[k0 v0] m IH]; simpl.
  - by intros ?%elem_of_nil.
  - intros Hin. case_bool_decide as Hk; simpl.
    + by subst.
    + f_equal. apply IH. apply elem_of_cons in Hin as [->|Hin]; done.
Qed.

(** ** What a call leaves alone *)

Lemma keeps_setup_refl t : keeps_setup t t.
Proof. split; try done. exists []. by rewrite app_nil_r. Qed.

Lemma keeps_setup_trans t1 t2 t3 :
  keeps_setup t1 t2 -> keeps_setup t2 t3 -> keeps_setup t1 t3.
Proof.
  intros [] []. split; try congruence.
  - intros k Hk. rewrite keeps_partials1, keeps_partials0; done.
  - destruct keeps_console0 as [l1 H1], keeps_console1 as [l2 H2].
    exists (l1 ++ l2). by rewrite H2, H1, app_assoc.
Qed.

Lemma keeps_setup_console t lines : keeps_setup t (set_console (console t ++ lines) t).
Proof. split; try done. by exists lines. Qed.

Lemma keeps_setup_body t (m : gmap string string) :
  (forall k, k <> "body" -> m !! k = partials t !! k) ->
  keeps_setup t (set_partials m t).
Proof. intros Hm. split; try done. exists []. simpl. by rewrite app_nil_r. Qed.

Lemma debug_keeps msg t : keeps_setup t (debug msg t).2.
Proof. rewrite debug_run. apply keeps_setup_console. Qed.

Lemma err_keeps msg t : keeps_setup t (err msg t).2.
Proof. apply keeps_setup_console. Qed.

(** the "Assign layout" step returns, and writes at most a debug line *)
Lemma assign_layout_run file isLayout context t :
  exists context' lines,
    assign_layout file isLayout context t
    = (Normal context', set_console (console t ++ lines) t).
Proof.
  assert (Hret : forall c : gmap string value,
            exists context' lines,
              ret c t = (Normal context', set_console (console t ++ lines) t)).
  { intros c. exists c, []. by rewrite set_console_nil. }
  assert (Hdebug : forall msg,
            exists context' lines,
              (debug msg ;; ret context) t
              = (Normal context', set_console (console t ++ lines) t)).
  { intros msg. unfold bind. rewrite debug_run. by eexists _, _. }
  unfold assign_layout.
  destruct (get context "layout") as [| |[]|[]| | |]; try apply Hdebug;
    (destruct (_defaultLayout t) as [d|]; [destruct (_ && _)|]; apply Hret).
Qed.

(** [_createTemplate] writes at most a debug line *)
Lemma createTemplate_console E file isLayout t r t' :
  _createTemplate E file isLayout t = (r, t') ->
  exists lines, t' = set_console (console t ++ lines) t.
Proof.
  unfold _createTemplate. destruct (gm_read E file) as [e|[context content]].
  { intros [= <- <-]. exists []. by rewrite set_console_nil. }
  destruct (unpublished context).
  { intros [= <- <-]. exists []. by rewrite set_console_nil. }
  unfold bind.
  destruct (assign_layout_run file isLayout context t) as (context' & lines & ->).
  intros [= <- <-]. by exists lines.
Qed.

Lemma createTemplate_keeps E file isLayout t r t' :
  _createTemplate E file isLayout t = (r, t') -> keeps_setup t t'.
Proof. intros [lines ->]%createTemplate_console. apply keeps_setup_console. Qed.

(** ** [_getLayout] *)

(** a lookup changes the Map only at the name it resolves *)
Lemma getLayout_keeps E name t r t' :
  _getLayout E name t = (r, t') -> keeps_setup t t'.
Proof.
  unfold _getLayout. destruct name as [| | | |name| |];
    try (intros [= <- <-]; apply keeps_setup_refl).
  set (key := if bool_decide (path_extname E name = "") then name else stripExtname E name).
  destruct (LayoutMap.get key (_layouts t)) as [[file|layout|]|] eqn:Hget.
  - unfold bind.
    destruct (_createTemplate E file true t) as [[layout| |] t1] eqn:Hc;
      intros [= <- <-]; apply createTemplate_console in Hc as [lines ->];
      try apply keeps_setup_console.
    split; try done.
    + simpl. apply LayoutMap_keys_set_known. by eapply LayoutMap_get_Some_keys.
    + by exists lines.
  - intros [= <- <-]. apply keeps_setup_refl.
  - intros [= <- <-]. apply keeps_setup_refl.
  - intros [= <- <-]. apply keeps_setup_console.
Qed.

(** X1. A layout that [_getLayout] has resolved is cached: the next lookup
    of the same name returns the same template and changes nothing, without
    reading the file again. *)
Theorem getLayout_is_cached E name t layout t1 :
  _getLayout E (VStr name) t = (Normal (Some layout), t1) ->
  _getLayout E (VStr name) t1 = (Normal (Some layout), t1).
Proof.
  unfold _getLayout.
  set (key := if bool_decide (path_extname E name = "") then name else stripExtname E name).
  destruct (LayoutMap.get key (_layouts t)) as [[file|layout0|]|] eqn:Hget.
  - unfold bind.
    destruct (_createTemplate E file true t) as [[[layout1|]| |] t0] eqn:Hc;
      intros [= <- <-]. simpl.
    by rewrite LayoutMap_get_set_eq.
  - intros [= <- <-]. by rewrite Hget.
  - intros [=].
  - intros [=].
Qed.

(** On the concrete site: the layout [main], looked up twice. *)
Lemma getLayout_is_cached_witness :
  let first := _getLayout Run.site (VStr "main") (Run.taft false) in
  _getLayout Run.site (VStr "main") first.2 = first.
Proof.
  intros first.
  rewrite (getLayout_is_cached Run.site "main" (Run.taft false)
             {| t_file := "/site/layouts/main.html"; t_page := ">[main] ";
                t_data := ∅; t_isLayout := true |} first.2).
  - vm_compute. reflexivity.
  - vm_compute. reflexivity.
Defined.

(** ** [build] and the setup of the object *)

Section Keeps.

Context (R : Taft -> Taft -> Prop).
Hypothesis R_refl : forall t, R t t.
Hypothesis R_trans : forall t1 t2 t3, R t1 t2 -> R t2 t3 -> R t1 t3.

Lemma keeps_ret {A} (a : A) : keeps R (ret a).
Proof using R_refl. intros t r t' [= <- <-]. apply R_refl. Qed.

Lemma keeps_throw {A} e : keeps R (@throw A e).
Proof using R_refl. intros t r t' [= <- <-]. apply R_refl. Qed.

Lemma keeps_diverge {A} : keeps R (@diverge A).
Proof using R_refl. intros t r t' [= <- <-]. apply R_refl. Qed.

Lemma keeps_bind {A B} (c : M A) (k : A -> M B) :
  keeps R c -> (forall a, keeps R (k a)) -> keeps R (bind c k).
Proof using R_trans.
  intros Hc Hk t r t'. unfold bind.
  destruct (c t) as [[a|e|] t1] eqn:Hrun; specialize (Hc _ _ _ Hrun).
  - intros Hrun'. eapply R_trans; [done|]. by eapply Hk.
  - by intros [= <- <-].
  - by intros [= <- <-].
Qed.

Lemma keeps_try_catch {A} (body : M A) handler :
  keeps R body -> (forall e, keeps R (handler e)) -> keeps R (try_catch body handler).
Proof using R_trans.
  intros Hb Hh t r t'. unfold try_catch.
  destruct (body t) as [[a|e|] t1] eqn:Hrun; specialize (Hb _ _ _ Hrun).
  - by intros [= <- <-].
  - intros Hrun'. eapply R_trans; [done|]. by eapply Hh.
  - by intros [= <- <-].
Qed.

Lemma keeps_try_catch_finally {A} (body : M A) handler final :
  keeps R body -> (forall e, keeps R (handler e)) -> keeps R final ->
  keeps R (try_catch_finally body handler final).
Proof using R_trans.
  intros Hb Hh Hf t r t'. unfold try_catch_finally.
  assert (Hfirst : forall r1 t1,
            match body t with
            | (Throw e, t0) => handler e t0
            | done => done
            end = (r1, t1) -> R t t1).
  { intros r1 t1. destruct (body t) as [[a|e|] t0] eqn:Hrun; specialize (Hb _ _ _ Hrun).
    - by intros [= <- <-].
    - intros Hrun'. eapply R_trans; [done|]. by eapply Hh.
    - by intros [= <- <-]. }
  destruct (match body t with (Throw e, t0) => handler e t0 | done => done end)
    as [r1 t1]. specialize (Hfirst _ _ eq_refl).
  assert (Hlast : forall r2 t2, final t1 = (r2, t2) -> R t t2).
  { intros r2 t2 Hrun. eapply R_trans; [done|]. by eapply Hf. }
  destruct r1 as [a|e|]; [| |by intros [= <- <-]];
    destruct (final t1) as [[u|e'|] t2]; specialize (Hlast _ _ eq_refl);
    by intros [= <- <-].
Qed.

(** [build], over what its parts keep *)
Lemma keeps_build_with E fuel file data :
  (forall msg, keeps R (err msg)) ->
  (forall content, keeps R (registerPartial "body" content)) ->
  keeps R (unregisterPartial "body") ->
  (forall f isLayout, keeps R (_createTemplate E f isLayout)) ->
  (forall name, keeps R (_getLayout E name)) ->
  keeps R (build E fuel file data).
Proof using R_refl R_trans.
  intros Herr Hreg Hunreg Hcreate Hget.
  assert (Hdebug : forall msg, keeps R (debug msg)).
  { intros msg t r t'. unfold debug. destruct (_ && _); [apply Herr|by apply keeps_ret]. }
  assert (Happly : forall fuel layout content isLayout,
            keeps R (_applyLayout E fuel layout content isLayout)).
  { clear fuel. intros fuel. induction fuel as [|fuel IH]; intros layout content isLayout;
      rewrite applyLayout_unfold; (destruct (negb (truthy layout)); [apply keeps_ret|]);
      (apply keeps_try_catch_finally; [|intros e; apply keeps_throw|apply Hunreg]);
      (apply keeps_bind; [apply Hget|]);
      intros [layout_template|]; try apply keeps_ret;
      (apply keeps_bind; [apply Hreg|]); intros _.
    - apply keeps_diverge.
    - intros t r t'. unfold render_with.
      destruct (hb_render _ _ _ _ _) as [e|out]; [apply keeps_throw|apply IH]. }
  unfold build. apply keeps_bind.
  - apply keeps_try_catch.
    + unfold build_try. apply keeps_bind; [apply Hcreate|].
      intros [template|].
      * apply keeps_bind; [apply Hdebug|]. intros _.
        apply keeps_bind; [|intros c; apply keeps_ret].
        intros t r t'. unfold render, render_with.
        destruct (hb_render _ _ _ _ _) as [e|out]; [apply keeps_throw|apply Happly].
      * apply keeps_bind; [apply Hdebug|]. intros _. apply keeps_ret.
    + intros e. destruct (bool_decide (code e = Some "EISDIR")); [apply keeps_ret|].
      apply keeps_bind; [apply Herr|]. intros _. apply keeps_ret.
  - intros [[]|c]; apply keeps_ret.
Qed.

End Keeps.

Lemma keeps_setup_registerPartial content :
  keeps keeps_setup (registerPartial "body" content).
Proof.
  intros t r t' [= <- <-]. apply keeps_setup_body.
  intros k Hk. by rewrite lookup_insert_ne.
Qed.

Lemma keeps_setup_unregisterPartial : keeps keeps_setup (unregisterPartial "body").
Proof.
  intros t r t' [= <- <-]. apply keeps_setup_body.
  intros k Hk. by rewrite lookup_delete_ne.
Qed.

(** X2. Whatever [build] returns, it leaves the options, the flags, the
    data store, the known helpers and the default layout as they were, it
    keeps the registered layout names and their order, it keeps every
    partial other than [body], and it only adds lines to the console. *)
Theorem build_keeps_setup E fuel file data t :
  keeps_setup t (build E fuel file data t).2.
Proof.
  eapply (keeps_build_with keeps_setup keeps_setup_refl keeps_setup_trans
            E fuel file data).
  - intros msg t0 r t' [= <- <-]. apply keeps_setup_console.
  - apply keeps_setup_registerPartial.
  - apply keeps_setup_unregisterPartial.
  - intros f isLayout t0 r t'. apply createTemplate_keeps.
  - intros name t0 r t'. apply getLayout_keeps.
  - apply surjective_pairing.
Qed.

(** ** Objects that render alike *)

Lemma renders_alike_refl E t : renders_alike E t t.
Proof. by split. Qed.

Lemma renders_alike_sym E t t' : renders_alike E t t' -> renders_alike E t' t.
Proof. intros []. split; try done. intros k Hk. by rewrite alike_partials0. Qed.

Lemma renders_alike_trans E t1 t2 t3 :
  renders_alike E t1 t2 -> renders_alike E t2 t3 -> renders_alike E t1 t3.
Proof.
  intros [] []. split; try congruence.
  intros k Hk. rewrite alike_partials1, alike_partials0; done.
Qed.

Lemma renders_alike_console E t lines :
  renders_alike E t (set_console (console t ++ lines) t).
Proof. by split. Qed.

Lemma renders_alike_partials E t t' (m m' : gmap string string) :
  renders_alike E t t' ->
  (forall k, k <> "body" -> m' !! k = m !! k) ->
  renders_alike E (set_partials m t) (set_partials m' t').
Proof. intros [] Hm. by split. Qed.

(** two objects that render alike and agree on [body] have the same partials *)
Lemma renders_alike_all_partials E t t' :
  renders_alike E t t' ->
  partials t' !! "body" = partials t !! "body" ->
  partials t' = partials t.
Proof.
  intros [] Hbody. apply map_eq. intros k.
  destruct (decide (k = "body")) as [->|Hk]; [done|by apply alike_partials0].
Qed.

(** compiled as a layout, a file keeps the front matter it has *)
Lemma assign_layout_of_layout file context t :
  exists lines,
    assign_layout file true context t
    = (Normal context, set_console (console t ++ lines) t).
Proof.
  assert (Hret : exists lines,
            ret context t = (Normal context, set_console (console t ++ lines) t)).
  { exists []. by rewrite set_console_nil. }
  assert (Hdebug : forall msg,
            exists lines,
              (debug msg ;; ret context) t
              = (Normal context, set_console (console t ++ lines) t)).
  { intros msg. unfold bind. rewrite debug_run. by eexists. }
  unfold assign_layout.
  destruct (get context "layout") as [| |[]|[]| | |]; try apply Hdebug;
    (destruct (_defaultLayout t) as [d|]; [rewrite andb_false_r|]; apply Hret).
Qed.

Lemma createTemplate_of_layout E file t :
  exists lines,
    _createTemplate E file true t
    = (match resolve_entry E (_data t) (Path file) with
       | inl e => Throw e
       | inr layout => Normal layout
       end,
       set_console (console t ++ lines) t).
Proof.
  unfold _createTemplate, resolve_entry.
  destruct (gm_read E file) as [e|[context content]].
  { exists []. by rewrite set_console_nil. }
  destruct (unpublished context).
  { exists []. by rewrite set_console_nil. }
  unfold bind.
  destruct (assign_layout_of_layout file context t) as [lines ->].
  exists lines. unfold ret. simpl. by rewrite merge_clone.
Qed.

(** [_getLayout] ends as the name resolves, leaves the partials alone and
    leaves an object that renders like the one it started from. *)
Lemma getLayout_resolves E name t :
  let key := if bool_decide (path_extname E name = "") then name
             else stripExtname E name in
  exists t',
    _getLayout E (VStr name) t = (lookup_result (resolves E t key), t')
    /\ renders_alike E t t'
    /\ partials t' = partials t.
Proof.
  intros key. unfold _getLayout, resolves. fold key.
  destruct (LayoutMap.get key (_layouts t)) as [[file|layout|]|] eqn:Hget; simpl.
  - destruct (createTemplate_of_layout E file t) as [lines Hc].
    unfold bind. rewrite Hc. simpl.
    destruct (gm_read E file) as [e|[context content]] eqn:Hread.
    { eexists. split; [done|]. split; [apply renders_alike_console|done]. }
    destruct (unpublished context) eqn:Hpub; simpl;
      (eexists; split; [done|]; split; [|done]);
      (split; try done; intros name'; unfold resolves; simpl;
       destruct (decide (key = name')) as [<-|Hne];
       [rewrite LayoutMap_get_set_eq, Hget; simpl; by rewrite Hread, Hpub
       |by rewrite LayoutMap_get_set_ne]).
  - eexists. split; [done|]. split; [apply renders_alike_refl|done].
  - eexists. split; [done|]. split; [apply renders_alike_refl|done].
  - eexists. split; [done|]. split; [apply renders_alike_console|done].
Qed.

(** ** Computations that cannot tell such objects apart *)

Section Blind.

Context (E : collaborators).

Lemma blind_ret {A} (a : A) : blind E (ret a).
Proof. intros t t' r t1 Halike Hbody [= <- <-]. by exists t'. Qed.

Lemma blind_throw {A} e : blind E (@throw A e).
Proof. intros t t' r t1 Halike Hbody [= <- <-]. by exists t'. Qed.

Lemma blind_diverge {A} : blind E (@diverge A).
Proof. intros t t' r t1 Halike Hbody [= <- <-]. by exists t'. Qed.

Lemma blind_bind {A B} (c : M A) (k : A -> M B) :
  blind E c -> (forall a, blind E (k a)) -> blind E (bind c k).
Proof.
  intros Hc Hk t t' r t1 Halike Hbody. unfold bind.
  destruct (c t) as [[a|e|] t0] eqn:Hrun;
    destruct (Hc _ _ _ _ Halike Hbody Hrun) as (t0' & -> & Halike0 & Hbody0).
  - intros Hrun'. by eapply Hk.
  - intros [= <- <-]. by exists t0'.
  - intros [= <- <-]. by exists t0'.
Qed.

Lemma blind_try_catch {A} (body : M A) handler :
  blind E body -> (forall e, blind E (handler e)) -> blind E (try_catch body handler).
Proof.
  intros Hb Hh t t' r t1 Halike Hbody. unfold try_catch.
  destruct (body t) as [[a|e|] t0] eqn:Hrun;
    destruct (Hb _ _ _ _ Halike Hbody Hrun) as (t0' & -> & Halike0 & Hbody0).
  - intros [= <- <-]. by exists t0'.
  - intros Hrun'. by eapply Hh.
  - intros [= <- <-]. by exists t0'.
Qed.

Lemma blind_try_catch_finally {A} (body : M A) handler final :
  blind E body -> (forall e, blind E (handler e)) -> blind E final ->
  blind E (try_catch_finally body handler final).
Proof.
  intros Hb Hh Hf.
  pose proof (blind_try_catch body handler Hb Hh) as Hfirst.
  intros t t' r t1 Halike Hbody. unfold try_catch_finally.
  unfold try_catch in Hfirst.
  destruct (match body t with (Throw e, t0) => handler e t0 | done => done end)
    as [r0 t0] eqn:Hrun.
  destruct (Hfirst _ _ _ _ Halike Hbody Hrun) as (t0' & -> & Halike0 & Hbody0).
  destruct r0 as [a|e|]; [| |intros [= <- <-]; by exists t0'];
    (destruct (final t0) as [[u|e'|] t2] eqn:Hfinal;
     destruct (Hf _ _ _ _ Halike0 Hbody0 Hfinal) as (t2' & -> & Halike2 & Hbody2);
     intros [= <- <-]; by exists t2').
Qed.

Lemma blind_err msg : blind E (err msg).
Proof.
  intros t t' r t1 Halike Hbody [= <- <-]. eexists. split; [done|]. split; [|done].
  destruct Halike. by split.
Qed.

Lemma blind_debug msg : blind E (debug msg).
Proof.
  intros t t' r t1 Halike Hbody. rewrite !debug_run. intros [= <- <-].
  eexists. split; [done|]. split; [|done]. destruct Halike. by split.
Qed.

Lemma blind_registerPartial name content : blind E (registerPartial name content).
Proof.
  intros t t' r t1 Halike Hbody [= <- <-]. eexists. split; [done|].
  pose proof (renders_alike_all_partials _ _ _ Halike Hbody) as Hall.
  split; [|simpl; by rewrite Hall].
  apply renders_alike_partials; [done|]. intros k Hk. by rewrite Hall.
Qed.

Lemma blind_unregisterPartial name : blind E (unregisterPartial name).
Proof.
  intros t t' r t1 Halike Hbody [= <- <-]. eexists. split; [done|].
  pose proof (renders_alike_all_partials _ _ _ Halike Hbody) as Hall.
  split; [|simpl; by rewrite Hall].
  apply renders_alike_partials; [done|]. intros k Hk. by rewrite Hall.
Qed.

Lemma blind_getLayout name : blind E (_getLayout E name).
Proof.
  intros t t' r t1 Halike Hbody.
  destruct name as [| | | |name| |];
    try (intros [= <- <-]; by exists t').
  destruct (getLayout_resolves E name t) as (t0 & -> & Halike0 & Hp0).
  destruct (getLayout_resolves E name t') as (t0' & Hrun' & Halike0' & Hp0').
  intros [= <- <-]. exists t0'. rewrite Hrun'.
  split; [by rewrite (alike_layouts _ _ _ Halike)|].
  split; [|by rewrite Hp0, Hp0'].
  eapply renders_alike_trans; [|exact Halike0'].
  eapply renders_alike_trans; [|exact Halike].
  by apply renders_alike_sym.
Qed.

Lemma blind_assign_layout file isLayout context :
  blind E (assign_layout file isLayout context).
Proof.
  unfold assign_layout.
  destruct (get context "layout") as [| |[]|[]| | |];
    try (apply blind_bind; [apply blind_debug|intros _; apply blind_ret]);
    (intros t t' r t1 Halike Hbody; rewrite (alike_default _ _ _ Halike);
     destruct (_defaultLayout t) as [d|]; [destruct (_ && _)|];
     by apply blind_ret).
Qed.

Lemma blind_createTemplate file isLayout : blind E (_createTemplate E file isLayout).
Proof.
  unfold _createTemplate. destruct (gm_read E file) as [e|[context content]];
    [apply blind_throw|].
  destruct (unpublished context); [apply blind_ret|].
  apply blind_bind; [apply blind_assign_layout|]. intros context'.
  intros t t' r t1 Halike Hbody. rewrite (alike_data _ _ _ Halike).
  by apply blind_ret.
Qed.

Lemma blind_render_with applyLayout tpl pageData preferGlobal :
  (forall layout content isLayout, blind E (applyLayout layout content isLayout)) ->
  blind E (render_with E applyLayout tpl pageData preferGlobal).
Proof.
  intros Happly t t' r t1 Halike Hbody. unfold render_with.
  rewrite (alike_helpers _ _ _ Halike), (renders_alike_all_partials _ _ _ Halike Hbody).
  destruct (hb_render _ _ _ _ _) as [e|out].
  - by apply blind_throw.
  - by apply Happly.
Qed.

Lemma blind_applyLayout fuel layout content isLayout :
  blind E (_applyLayout E fuel layout content isLayout).
Proof.
  revert layout content isLayout.
  induction fuel as [|fuel IH]; intros layout content isLayout;
    rewrite applyLayout_unfold; (destruct (negb (truthy layout)); [apply blind_ret|]);
    (apply blind_try_catch_finally;
     [|intros e; apply blind_throw|apply blind_unregisterPartial]);
    (apply blind_bind; [apply blind_getLayout|]);
    intros [layout_template|]; try apply blind_ret;
    (apply blind_bind; [apply blind_registerPartial|]); intros _.
  - apply blind_diverge.
  - by apply blind_render_with.
Qed.

Lemma blind_build fuel file data : blind E (build E fuel file data).
Proof.
  unfold build. apply blind_bind.
  - apply blind_try_catch.
    + unfold build_try. apply blind_bind; [apply blind_createTemplate|].
      intros [template|].
      * apply blind_bind; [apply blind_debug|]. intros _.
        apply blind_bind; [|intros c; apply blind_ret].
        apply blind_render_with. intros. apply blind_applyLayout.
      * apply blind_bind; [apply blind_debug|]. intros _. apply blind_ret.
    + intros e. destruct (bool_decide (code e = Some "EISDIR")); [apply blind_ret|].
      apply blind_bind; [apply blind_err|]. intros _. apply blind_ret.
  - intros [[]|c]; apply blind_ret.
Qed.

End Blind.

(** ** Building the same file again *)

Lemma applyLayout_body_absent E fuel layout content isLayout t r t' :
  partials t !! "body" = None ->
  _applyLayout E fuel layout content isLayout t = (r, t') ->
  r <> Diverge ->
  partials t' !! "body" = None.
Proof.
  intros Hbody. rewrite applyLayout_unfold.
  destruct (negb (truthy layout)).
  - by intros [= <- <-].
  - intros Hrun Hr. apply try_catch_finally_runs_final in Hrun as [t1 ->]; [|done].
    simpl. apply lookup_delete_eq.
Qed.

Lemma build_try_body_absent E fuel file data t r t' :
  partials t !! "body" = None ->
  build_try E fuel file data t = (r, t') ->
  r <> Diverge ->
  partials t' !! "body" = None.
Proof.
  intros Hbody. unfold build_try, bind.
  destruct (_createTemplate E (path_resolve E file) false t) as [[[tpl|]|e|] t0] eqn:Hc;
    apply createTemplate_console in Hc as [lines ->]; rewrite ?debug_run; simpl;
    try (by intros [= <- <-]).
  unfold render, render_with. simpl.
  destruct (hb_render _ _ _ _ _) as [e|out]; [by intros [= <- <-]|].
  destruct (_applyLayout _ _ _ _ _ _) as [[c|e|] t2] eqn:Happly;
    intros [= <- <-] Hr; try done;
    by apply applyLayout_body_absent in Happly.
Qed.

Lemma build_body_absent E fuel file data t r t' :
  partials t !! "body" = None ->
  build E fuel file data t = (r, t') ->
  r <> Diverge ->
  partials t' !! "body" = None.
Proof.
  intros Hbody. unfold build, try_catch. unfold bind at 1.
  destruct (build_try E fuel file data t) as [[[[]|c]|e|] t0] eqn:Htry.
  - intros [= <- <-] _. by apply build_try_body_absent in Htry.
  - intros [= <- <-] _. by apply build_try_body_absent in Htry.
  - apply build_try_body_absent in Htry; [|done..].
    destruct (bool_decide (code e = Some "EISDIR")); by intros [= <- <-].
  - by intros [= <- <-].
Qed.

Lemma build_renders_alike E fuel file data t :
  renders_alike E t (build E fuel file data t).2.
Proof.
  eapply (keeps_build_with (renders_alike E) (renders_alike_refl E)
            (renders_alike_trans E) E fuel file data).
  - intros msg t0 r t' [= <- <-]. apply renders_alike_console.
  - intros content t0 r t' [= <- <-]. split; try done.
    intros k Hk. simpl. by rewrite lookup_insert_ne.
  - intros t0 r t' [= <- <-]. split; try done.
    intros k Hk. simpl. by rewrite lookup_delete_ne.
  - intros f isLayout t0 r t' [lines ->]%createTemplate_console.
    apply renders_alike_console.
  - intros [| | | |name| |] t0 r t'; try (intros [= <- <-]; apply renders_alike_refl).
    destruct (getLayout_resolves E name t0) as (t1 & -> & Halike & _).
    by intros [= <- <-].
  - apply surjective_pairing.
Qed.

(** X3. Building a file twice gives the same result twice: when no partial
    [body] is registered and [build] returns, [build] on the object it left
    returns the same value, although the first call may have compiled
    layouts and written to the console. *)
Theorem build_twice E fuel file data t r t1 :
  partials t !! "body" = None ->
  build E fuel file data t = (r, t1) ->
  r <> Diverge ->
  (build E fuel file data t1).1 = r.
Proof.
  intros Hbody Hrun Hr.
  pose proof (build_renders_alike E fuel file data t) as Halike.
  rewrite Hrun in Halike. simpl in Halike.
  pose proof (build_body_absent _ _ _ _ _ _ _ Hbody Hrun Hr) as Hbody1.
  destruct (blind_build E fuel file data t t1 r t1 Halike) as (t2 & -> & _);
    [congruence|done|done].
Qed.

(** On the concrete site: the page [index.html] with its layout [main]. *)
Lemma build_twice_witness :
  let first := build Run.site 2 "index.html" VUndef (Run.taft false) in
  (exists c, first.1 = Normal (Some c) /\ body c = "[main] <p>Hi</p>")
  /\ (build Run.site 2 "index.html" VUndef first.2).1 = first.1.
Proof.
  intros first. split.
  - eexists. split; vm_compute; reflexivity.
  - apply (build_twice Run.site 2 "index.html" VUndef (Run.taft false) first.1 first.2).
    + reflexivity.
    + apply surjective_pairing.
    + vm_compute. discriminate.
Defined.

(** ** A page in its layout *)

(** X5. How a page is threaded into a layout that has no layout of its
    own.  The layout is rendered once, with the body of the page registered
    as the partial [body] and with its own base data over the data of the
    page (for a page that is not a layout, with a copy of that data under
    [page]); the [layout] key, which it inherits from the page and which
    names the layout itself, is cleared, so the chain ends there; the result
    is the rendering of the layout, and [body] is unregistered. *)
Theorem layout_applied_once E fuel name content isLayout t layout t1 out :
  let page := if negb isLayout then set_page content else content in
  let d := <["layout" := VUndef]> (t_data layout ∪ data_of page) in
  name <> "" ->
  _getLayout E (VStr name) t = (Normal (Some layout), t1) ->
  get (data_of content) "layout" = VStr name ->
  t_data layout !! "layout" = None ->
  name = path_basename E (t_file layout) None \/ name = stripExtname E (t_file layout) ->
  hb_render E (_helpers t1) (<["body" := body content]> (partials t1))
            (t_page layout) d = inr out ->
  _applyLayout E (S fuel) (VStr name) content isLayout t
  = (Normal (new_Content out d), set_partials (delete "body" (partials t1)) t1).
Proof.
  intros page d Hname Hget Hpage Hbase Hown Hrender.
  assert (Hlayout : get (t_data layout ∪ data_of page) "layout" = VStr name).
  { unfold get. rewrite lookup_union_r by done. unfold page.
    destruct (negb isLayout); [|done]. simpl. by rewrite lookup_insert_ne. }
  rewrite applyLayout_unfold. simpl. rewrite bool_decide_eq_false_2 by done. simpl.
  unfold unregisterPartial.
  rewrite (try_catch_finally_normal _ _
             (fun t => set_partials (delete "body" (partials t)) t) t
             (new_Content out d)
             (set_partials (<["body" := body content]> (partials t1)) t1)).
  { simpl. by rewrite delete_insert_eq. }
  erewrite bind_normal by exact Hget.
  unfold registerPartial. erewrite bind_normal by reflexivity.
  unfold render_with, tplData. fold page. rewrite merge_onto.
  unfold clear_own_layout, own_layout. rewrite Hlayout.
  assert (bool_decide (name = path_basename E (t_file layout) None)
          || bool_decide (name = stripExtname E (t_file layout)) = true) as ->.
  { destruct Hown as [Ho|Ho].
    - by rewrite (bool_decide_eq_true_2 _ Ho).
    - rewrite (bool_decide_eq_true_2 _ Ho). apply orb_true_r. }
  fold d. simpl. rewrite Hrender.
  rewrite applyLayout_unfold. unfold get, d. by rewrite lookup_insert_eq.
Qed.

(** On the concrete site: the page of [index.html] in the layout [main]. *)
Lemma layout_applied_once_witness :
  let page := new_Content "<p>Hi</p>" {[ "title" := VStr "Hi"; "layout" := VStr "main" ]} in
  exists c t',
    _applyLayout Run.site 1 (VStr "main") page false (Run.taft false) = (Normal c, t')
    /\ body c = "[main] <p>Hi</p>"
    /\ data_of c !! "title" = Some (VStr "Hi")
    /\ data_of c !! "layout" = Some VUndef
    /\ partials t' !! "body" = None.
Proof.
  intros page.
  pose (main := {| t_file := "/site/layouts/main.html"; t_page := ">[main] ";
                   t_data := ∅; t_isLayout := true |}).
  eexists _, _. split.
  - apply (layout_applied_once Run.site 0 "main" page false (Run.taft false) main
             (_getLayout Run.site (VStr "main") (Run.taft false)).2 "[main] <p>Hi</p>").
    + discriminate.
    + vm_compute. reflexivity.
    + reflexivity.
    + reflexivity.
    + right. vm_compute. reflexivity.
    + vm_compute. reflexivity.
  - repeat split; vm_compute; reflexivity.
Defined.

(** ** Which layout a file gets *)

(** the call data of [build] does not name a layout *)
Lemma tplData_layout_of_base tpl data :
  (forall o, data = VObj o -> o !! "layout" = None) ->
  get (tplData tpl data false) "layout" = get (t_data tpl) "layout".
Proof.
  intros Hdata. unfold tplData, merge, get. simpl.
  rewrite (right_id_L ∅ (∪)).
  destruct data as [| | | | | |o]; try done.
  by rewrite lookup_union_r by by apply Hdata.
Qed.

(** X7. A file whose front matter has [layout] equal to [false] or to [0]
    gets no layout, whatever the default layout is: when the call data sets
    no [layout] either, [build] returns the rendering of the page itself,
    with the front matter over the data store as its base data, and does not
    touch the layout registry. *)
Theorem layout_false_gets_no_layout E fuel file data context content t out :
  let tpl := {| t_file := path_resolve E file; t_page := trimLeft content;
                t_data := context ∪ _data t; t_isLayout := false |} in
  let d := tplData tpl data false in
  let lines := if verbose t && negb (silent t)
               then ["not using layout with " +:+ path_resolve E file;
                     "building: " +:+ file]
               else [] in
  gm_read E (path_resolve E file) = inr (context, content) ->
  unpublished context = false ->
  get context "layout" = VBool false \/ get context "layout" = VNum 0 ->
  (forall o, data = VObj o -> o !! "layout" = None) ->
  hb_render E (_helpers t) (partials t) (trimLeft content) d = inr out ->
  build E fuel file data t
  = (Normal (Some {| body := out; data_of := d; source := Some file |}),
     set_console (console t ++ lines) t).
Proof.
  intros tpl d lines Hread Hpub Hfalse Hdata Hrender.
  assert (Hcreate : _createTemplate E (path_resolve E file) false t
          = (Normal (Some tpl),
             set_console (console t ++ if verbose t && negb (silent t)
                                       then ["not using layout with "
                                             +:+ path_resolve E file]
                                       else []) t)).
  { unfold _createTemplate. rewrite Hread, Hpub.
    assert (assign_layout (path_resolve E file) false context t
            = (Normal context,
               set_console (console t ++ if verbose t && negb (silent t)
                                         then ["not using layout with "
                                               +:+ path_resolve E file]
                                         else []) t)) as Hassign.
    { unfold assign_layout.
      destruct Hfalse as [-> | ->]; unfold bind; by rewrite debug_run. }
    erewrite bind_normal by exact Hassign. unfold ret. simpl.
    by rewrite merge_clone. }
  assert (Hlayout : get d "layout" = get context "layout").
  { unfold d. rewrite tplData_layout_of_base by done. simpl. unfold get.
    destruct Hfalse as [Hf|Hf]; unfold get in Hf;
      destruct (context !! "layout") as [v|] eqn:Hc; simplify_eq/=;
      by erewrite lookup_union_Some_l. }
  assert (Hclear : clear_own_layout E (path_resolve E file) d = d).
  { unfold clear_own_layout, own_layout. rewrite Hlayout.
    by destruct Hfalse as [-> | ->]. }
  assert (Hfalsy : truthy (get d "layout") = false).
  { rewrite Hlayout. by destruct Hfalse as [-> | ->]. }
  assert (Hrun : forall t0,
            _helpers t0 = _helpers t -> partials t0 = partials t ->
            render E fuel tpl data false t0 = (Normal (new_Content out d), t0)).
  { intros t0 Hh Hp. unfold render, render_with. rewrite Hh, Hp.
    change (t_file tpl) with (path_resolve E file).
    change (t_page tpl) with (trimLeft content).
    fold d. rewrite Hclear, Hrender. by rewrite applyLayout_unfold, Hfalsy. }
  assert (Htry : build_try E fuel file data t
          = (Normal (inr (new_Content out d)), set_console (console t ++ lines) t)).
  { unfold build_try. erewrite bind_normal by exact Hcreate. cbv beta iota.
    erewrite bind_normal by apply debug_run.
    erewrite bind_normal by (apply Hrun; reflexivity).
    unfold ret, lines, set_console. simpl. do 2 f_equal.
    destruct (verbose t && negb (silent t)); simpl;
      by rewrite <- ?app_assoc, ?app_nil_r. }
  unfold build. erewrite bind_normal; [|unfold try_catch; by rewrite Htry]. done.
Qed.

(** On the concrete site: [plain.html], on an object whose default layout
    is [main]. *)
Lemma layout_false_gets_no_layout_witness :
  let t := set_defaultLayout (Some "main") (Run.taft false) in
  build Run.site 0 "plain.html" VUndef t
  = (Normal (Some {| body := "plain"; data_of := {[ "layout" := VBool false ]};
                     source := Some "plain.html" |}), t).
Proof.
  intros t.
  rewrite (layout_false_gets_no_layout Run.site 0 "plain.html" VUndef
             {[ "layout" := VBool false ]} "plain" t "plain").
  - vm_compute. reflexivity.
  - reflexivity.
  - reflexivity.
  - left. reflexivity.
  - discriminate.
  - vm_compute. reflexivity.
Defined.

(** X8. A file that is published and whose front matter has no [layout]
    inherits the default layout when it is compiled as a page, even over a
    [layout] key of the data store; compiled as a layout it does not, and
    its base data has the [layout] of the data store, if any. *)
Theorem default_layout_inherited E file isLayout context content d t :
  gm_read E file = inr (context, content) ->
  unpublished context = false ->
  context !! "layout" = None ->
  _defaultLayout t = Some d ->
  d <> "" ->
  exists tpl,
    _createTemplate E file isLayout t = (Normal (Some tpl), t)
    /\ t_file tpl = file
    /\ t_page tpl = trimLeft content
    /\ t_data tpl !! "layout" = if isLayout then _data t !! "layout" else Some (VStr d).
Proof.
  intros Hread Hpub Hnone Hdefault Hd.
  unfold _createTemplate. rewrite Hread, Hpub.
  assert (Hassign : assign_layout file isLayout context t
          = (Normal (if isLayout then context else <["layout" := VStr d]> context), t)).
  { unfold assign_layout, get. rewrite Hnone, Hdefault. simpl.
    rewrite bool_decide_eq_false_2 by done. by destruct isLayout. }
  erewrite bind_normal by exact Hassign.
  eexists. split; [done|]. split; [done|]. split; [done|]. simpl.
  rewrite merge_clone. destruct isLayout.
  - by rewrite lookup_union_r.
  - apply lookup_union_Some_l. by rewrite lookup_insert_eq.
Qed.

(** On the concrete site, with [main] as the default: [main.html] itself
    has no [layout] in its front matter. *)
Lemma default_layout_inherited_witness :
  let t := set_defaultLayout (Some "main") (Run.taft false) in
  exists page layout,
    _createTemplate Run.site "/site/layouts/main.html" false t = (Normal (Some page), t)
    /\ t_data page !! "layout" = Some (VStr "main")
    /\ _createTemplate Run.site "/site/layouts/main.html" true t = (Normal (Some layout), t)
    /\ t_data layout !! "layout" = None.
Proof.
  intros t.
  destruct (default_layout_inherited Run.site "/site/layouts/main.html" false
              ∅ ">[main] " "main" t) as (page & Hp & _ & _ & Hpl);
    try reflexivity; try discriminate.
  destruct (default_layout_inherited Run.site "/site/layouts/main.html" true
              ∅ ">[main] " "main" t) as (layout & Hl & _ & _ & Hll);
    try reflexivity; try discriminate.
  exists page, layout. repeat split; assumption.
Defined.

(** ** The data store, whatever the sources *)

Lemma store_grows_refl t : store_grows t t.
Proof. by split. Qed.

Lemma store_grows_trans t1 t2 t3 :
  store_grows t1 t2 -> store_grows t2 t3 -> store_grows t1 t3.
Proof. intros [] []. split; try congruence. auto. Qed.

Lemma store_grows_console t lines : store_grows t (set_console (console t ++ lines) t).
Proof. by split. Qed.

Lemma store_grows_merge t (d : gmap string value) :
  store_grows t (set_data (merge [VObj (_data t); VObj d]) t).
Proof.
  split; try done. intros k [v Hk]. simpl. rewrite merge_onto, lookup_union.
  rewrite Hk. destruct (d !! k); by eexists.
Qed.

Lemma forEach_returns {A} (f : A -> M unit) l t :
  (forall x t0, exists t1, f x t0 = (Normal tt, t1) /\ store_grows t0 t1) ->
  exists t', forEach f l t = (Normal tt, t') /\ store_grows t t'.
Proof.
  intros Hf. revert t. induction l as [|x l IH]; intros t.
  - exists t. split; [done|apply store_grows_refl].
  - destruct (Hf x t) as (t1 & Hx & Hg1). destruct (IH t1) as (t' & Hl & Hg).
    exists t'. split; [|by eapply store_grows_trans].
    simpl. by erewrite bind_normal by exact Hx.
Qed.

Lemma data_callback_returns arg r t :
  exists t', data_callback arg r t = (Normal tt, t') /\ store_grows t t'.
Proof.
  destruct r as [e|d]; simpl.
  { eexists. split; [done|]. apply store_grows_console. }
  unfold try_catch.
  assert (Hmerge : forall msg,
            exists t',
              (debug msg ;;
               modify (fun t => set_data (merge [VObj (_data t); VObj d]) t)) t
              = (Normal tt, t') /\ store_grows t t').
  { intros msg. erewrite bind_normal by apply debug_run.
    eexists. split; [done|].
    eapply store_grows_trans; [apply store_grows_console|].
    apply store_grows_merge. }
  destruct (Object_keys d) as [|k [|k' ks]].
  - erewrite bind_normal by reflexivity. eexists. split; [done|].
    apply store_grows_merge.
  - destruct (Hmerge ("parsed " +:+ k)) as (t' & -> & Hg). by exists t'.
  - destruct arg as [s|o].
    + destruct (Hmerge ("parsed " +:+ String.substring 0 60 s)) as (t' & -> & Hg).
      by exists t'.
    + eexists. split; [done|]. apply store_grows_console.
Qed.

(** X9. [data] never throws, whatever its arguments decode to: a source
    that fails is written to the console and the next ones are still read.
    A key that the data store has is never removed, and the layouts, the
    default layout, the known helpers and the partials are left as they
    were. *)
Theorem data_never_throws E args t :
  (data E args t).1 = Normal tt /\ store_grows t (data E args t).2.
Proof.
  destruct (forEach_returns
              (fun arg => forEach (data_callback arg) (Data_parse E arg)) args t)
    as (t' & Hrun & Hg).
  - intros arg t0. apply forEach_returns. intros r t1. apply data_callback_returns.
  - unfold data. by rewrite Hrun.
Qed.

(** X10. An object given to [data] whose data has two keys or more is not
    merged: the debug line of the callback calls [argument.substr], which
    an object does not have, the [catch] block writes [error reading ] and
    the data store is left as it was. *)
Theorem data_object_source_dropped E o (d : gmap string value) t :
  Data_parse E (ArgObj o) = [inr d] ->
  2 <= size d ->
  data E [ArgObj o] t = (Normal tt, set_console (console t ++ ["error reading "]) t).
Proof.
  intros Hparse Hsize. unfold data. cbn [forEach]. rewrite Hparse. cbn [forEach].
  assert (Hcb : data_callback (ArgObj o) (inr d) t
          = (Normal tt, set_console (console t ++ ["error reading "]) t)).
  { unfold data_callback, try_catch.
    assert (2 <= length (Object_keys d)) as Hlen.
    { unfold Object_keys. by rewrite length_fmap, length_map_to_list. }
    destruct (Object_keys d) as [|k [|k' ks]]; simpl in Hlen; [lia..|]. done. }
  unfold bind. by rewrite Hcb.
Qed.

(** On the concrete site, where an object is its own data. *)
Lemma data_object_source_dropped_witness :
  let o : gmap string value := {[ "title" := VStr "Site"; "year" := VNum 2016 ]} in
  data Run.site [ArgObj o] (new_Taft None true false)
  = (Normal tt, set_console ["error reading "] (new_Taft None true false)).
Proof.
  intros o. apply (data_object_source_dropped Run.site o o).
  - reflexivity.
  - vm_compute. lia.
Defined.

(** ** [partials] *)

Section PartialsFacts.

Context (E : collaborators) (readFileSync : string -> error + string).

Lemma partials_each_run items registered t :
  partials_each E readFileSync items registered t
  = (Normal (registered ++ partials_registered E readFileSync items),
     set_console (console t ++ partials_errors E readFileSync items)
       (set_partials (partials_after E readFileSync items (partials t)) t)).
Proof.
  revert registered t. induction items as [|item items IH]; intros registered t.
  - simpl. rewrite app_nil_r. unfold ret. f_equal.
    destruct t. unfold set_console, set_partials. simpl. by rewrite app_nil_r.
  - simpl. unfold partials_registered, partials_errors, partials_after. simpl.
    destruct (readFileSync item) as [e|text].
    + destruct (bool_decide (code e = Some "EISDIR")).
      * erewrite bind_normal by reflexivity. apply IH.
      * erewrite bind_normal by reflexivity. rewrite IH. simpl.
        unfold set_console, set_partials. simpl. by rewrite <- app_assoc.
    + erewrite bind_normal by reflexivity. rewrite IH. simpl.
      by rewrite <- app_assoc.
Qed.

Lemma partials_files_run args t :
  let items := mergeGlob E args in
  let registered := partials_registered E readFileSync items in
  partials_files E readFileSync args t
  = (Normal tt,
     set_console
       (console t ++ partials_errors E readFileSync items
        ++ match registered with
           | [] => []
           | _ => if verbose t && negb (silent t)
                  then ["registered partials: " +:+ String.concat ", " registered]
                  else []
           end)
       (set_partials (partials_after E readFileSync items (partials t)) t)).
Proof.
  intros items registered. unfold partials_files.
  erewrite bind_normal by apply partials_each_run. simpl. fold items registered.
  destruct registered as [|name names].
  - unfold ret. by rewrite app_nil_r.
  - rewrite debug_run. unfold set_console. simpl. by rewrite <- app_assoc.
Qed.

Lemma partials_after_snoc items item (m : gmap string string) :
  partials_after E readFileSync (items ++ [item]) m
  = match readFileSync item with
    | inr text => <[stripExtname E item := text]>
                    (partials_after E readFileSync items m)
    | inl _ => partials_after E readFileSync items m
    end.
Proof. unfold partials_after. by rewrite foldl_snoc. Qed.

(** a name that no readable file of the list has keeps its partial *)
Lemma partials_after_other items (m : gmap string string) name :
  (forall item text, item ∈ items -> readFileSync item = inr text ->
                     stripExtname E item <> name) ->
  partials_after E readFileSync items m !! name = m !! name.
Proof.
  induction items as [|item items IH] using rev_ind; intros Hother; [done|].
  rewrite partials_after_snoc.
  assert (partials_after E readFileSync items m !! name = m !! name) as Hrest.
  { apply IH. intros x text Hx. apply Hother. apply elem_of_app. by left. }
  destruct (readFileSync item) as [e|text] eqn:Hread; [done|].
  rewrite lookup_insert_ne; [done|].
  apply (Hother item text); [|done]. apply elem_of_app. right. by left.
Qed.

(** X11. [partials], given file names, never throws.  A file that can be
    read is registered under its name without the extension, and the last
    such file of a name is the one that stays; a partial whose name no
    readable file has is kept; the data store, the layouts and the default
    layout are not touched. *)
Theorem partials_files_registers args t before item after text :
  let t' := (partials_files E readFileSync args t).2 in
  mergeGlob E args = before ++ item :: after ->
  readFileSync item = inr text ->
  (forall item' text', item' ∈ after -> readFileSync item' = inr text' ->
                       stripExtname E item' <> stripExtname E item) ->
  (partials_files E readFileSync args t).1 = Normal tt
  /\ partials t' !! stripExtname E item = Some text
  /\ (forall name,
        (forall item' text', item' ∈ mergeGlob E args ->
                             readFileSync item' = inr text' ->
                             stripExtname E item' <> name) ->
        partials t' !! name = partials t !! name)
  /\ _data t' = _data t /\ _layouts t' = _layouts t
  /\ _defaultLayout t' = _defaultLayout t.
Proof.
  intros t' Hitems Hread Hlast. unfold t'. rewrite partials_files_run. simpl.
  split; [done|]. split; [|split; [|done]].
  - rewrite Hitems. unfold partials_after. rewrite foldl_app. simpl. rewrite Hread.
    fold (partials_after E readFileSync after
            (<[stripExtname E item := text]>
               (foldl (fun m partial =>
                         match readFileSync partial with
                         | inr text => <[stripExtname E partial := text]> m
                         | inl _ => m
                         end) (partials t) before))).
    rewrite partials_after_other by done. apply lookup_insert_eq.
  - intros name Hother. by apply partials_after_other.
Qed.

Lemma partials_of_directory item items (m : gmap string string) e :
  readFileSync item = inl e ->
  code e = Some "EISDIR" ->
  partials_after E readFileSync (item :: items) m = partials_after E readFileSync items m
  /\ partials_errors E readFileSync (item :: items) = partials_errors E readFileSync items
  /\ partials_registered E readFileSync (item :: items)
     = partials_registered E readFileSync items.
Proof.
  intros Hread Hcode.
  unfold partials_after, partials_errors, partials_registered. simpl.
  by rewrite Hread, bool_decide_eq_true_2.
Qed.

(** X12. What [partials] writes for the files it cannot read, on an object
    that is not verbose: nothing for a directory (an error whose code is
    [EISDIR]) and one line for every other such file, in the order of the
    files, also when the object is silent.  When every file is a directory
    the object is left exactly as it was. *)
Theorem partials_files_diagnostics args t :
  (verbose t = false ->
   console (partials_files E readFileSync args t).2
   = console t ++ partials_errors E readFileSync (mergeGlob E args))
  /\ ((forall item, item ∈ mergeGlob E args ->
         exists e, readFileSync item = inl e /\ code e = Some "EISDIR") ->
      partials_files E readFileSync args t = (Normal tt, t)).
Proof.
  rewrite partials_files_run. simpl. split.
  - intros ->. simpl.
    by destruct (partials_registered _ _ _); rewrite app_nil_r.
  - intros Hdirs.
    assert (Hall : forall items (m : gmap string string),
              (forall item, item ∈ items ->
                 exists e, readFileSync item = inl e /\ code e = Some "EISDIR") ->
              partials_after E readFileSync items m = m
              /\ partials_errors E readFileSync items = []
              /\ partials_registered E readFileSync items = []).
    { intros items. induction items as [|item items IH]; intros m Hd; [done|].
      destruct (Hd item) as (e & Hread & Hcode); [by left|].
      destruct (partials_of_directory item items m e Hread Hcode) as (-> & -> & ->).
      apply IH. intros x Hx. apply Hd. by right. }
    destruct (Hall (mergeGlob E args) (partials t) Hdirs) as (-> & -> & ->).
    f_equal. destruct t. unfold set_console, set_partials. simpl. by rewrite app_nil_r.
Qed.

End PartialsFacts.

(** On the files of module [Files]: a partial, a directory, a file that is
    not there, and the partial again from another directory. *)
Lemma partials_files_registers_witness :
  let t' := (partials_files Run.site Files.readFileSync
               ["/site/partials/head.hbs"; "/site/partials/more";
                "/site/partials/none.hbs"; "/site/partials/foot.hbs"]
               (new_Taft None false false)).2 in
  partials t' !! "foot" = Some "<foot>" /\ partials t' !! "head" = Some "<head>".
Proof.
  intros t'. split.
  - apply (partials_files_registers Run.site Files.readFileSync _ _
             ["/site/partials/head.hbs"; "/site/partials/more"; "/site/partials/none.hbs"]
             "/site/partials/foot.hbs" [] "<foot>").
    + reflexivity.
    + reflexivity.
    + intros item' text' Hin. by apply elem_of_nil in Hin.
  - apply (partials_files_registers Run.site Files.readFileSync _ _
             [] "/site/partials/head.hbs"
             ["/site/partials/more"; "/site/partials/none.hbs"; "/site/partials/foot.hbs"]
             "<head>").
    + reflexivity.
    + reflexivity.
    + intros item' text' Hin Hread.
      repeat (apply elem_of_cons in Hin as [->|Hin];
              [first [discriminate Hread | vm_compute; discriminate]|]).
      by apply elem_of_nil in Hin.
Defined.

Lemma partials_files_diagnostics_witness :
  console (partials_files Run.site Files.readFileSync
             ["/site/partials/head.hbs"; "/site/partials/more"; "/site/partials/none.hbs"]
             (new_Taft None true false)).2
  = ["could not register partial: none"]
  /\ partials_files Run.site Files.readFileSync ["/site/partials/more"]
                    (new_Taft None false true)
     = (Normal tt, new_Taft None false true).
Proof.
  split.
  - destruct (partials_files_diagnostics Run.site Files.readFileSync
                ["/site/partials/head.hbs"; "/site/partials/more";
                 "/site/partials/none.hbs"] (new_Taft None true false)) as [-> _];
      reflexivity.
  - apply partials_files_diagnostics.
    intros item Hin. apply list_elem_of_singleton in Hin as ->.
    eexists. split; reflexivity.
Defined.

(** ** Registering layouts again *)

Lemma registered_snoc E items item (m : list (string * layout_entry)) :
  foldl (fun m item => LayoutMap.set (stripExtname E item) (Path item) m) m
        (items ++ [item])
  = LayoutMap.set (stripExtname E item) (Path item)
      (foldl (fun m item => LayoutMap.set (stripExtname E item) (Path item) m) m items).
Proof. by rewrite foldl_snoc. Qed.

Lemma registered_lookup E items (m : list (string * layout_entry)) name :
  LayoutMap.get name
    (foldl (fun m item => LayoutMap.set (stripExtname E item) (Path item) m) m items)
  = match last (filter (fun item => stripExtname E item = name) items) with
    | Some item => Some (Path item)
    | None => LayoutMap.get name m
    end.
Proof.
  induction items as [|item items IH] using rev_ind; [done|].
  rewrite registered_snoc, filter_app, filter_cons, filter_nil.
  destruct (decide (stripExtname E item = name)) as [<-|Hne].
  - by rewrite LayoutMap_get_set_eq, last_snoc.
  - by rewrite LayoutMap_get_set_ne, app_nil_r.
Qed.

(** X13. After [layouts(...)], a name is bound to the last of the given
    files that has this name without its extension, as a path that is yet to
    be compiled, whatever it was bound to before: a layout that was compiled
    is read again at its next use.  A name that none of the files has keeps
    its entry. *)
Theorem layouts_last_file_wins E args t name :
  LayoutMap.get name (_layouts (layouts E args t).2)
  = match last (filter (fun item => stripExtname E item = name) (mergeGlob E args)) with
    | Some item => Some (Path item)
    | None => LayoutMap.get name (_layouts t)
    end.
Proof.
  destruct (layouts_run E args t) as (t' & -> & Hm & _). simpl.
  rewrite Hm. apply registered_lookup.
Qed.

(** ** A layout that is not a string *)

(** X14. A truthy [layout] that is not a string (a number, [true], an
    object) makes [_applyLayout] throw: [path.extname] rejects it, and the
    error is wrapped like any error of a layout.  The [finally] block has
    run, so a partial [body] that was registered before the call is gone,
    although the call never registered one. *)
Theorem applyLayout_layout_not_a_string E fuel layout content isLayout t :
  truthy layout = true ->
  (forall name, layout <> VStr name) ->
  _applyLayout E fuel layout content isLayout t
  = (Throw (layout_error layout (path_type_error E layout)),
     set_partials (delete "body" (partials t)) t).
Proof.
  intros Htruthy Hnot. rewrite applyLayout_unfold, Htruthy. simpl.
  unfold unregisterPartial.
  apply (try_catch_finally_rethrow _ (layout_error layout)
           (fun t => set_partials (delete "body" (partials t)) t)).
  apply bind_throw. unfold _getLayout.
  destruct layout as [| | | |name| |]; try done. by destruct (Hnot name).
Qed.

(** [layout: 3] in the front matter, and a partial [body] of the user. *)
Lemma applyLayout_layout_not_a_string_witness :
  let t := set_partials {[ "body" := "mine" ]} (Run.taft false) in
  let run := _applyLayout Run.site 1 (VNum 3) (new_Content "x" ∅) false t in
  run.1 = Throw (Error "unable to render layout 3 (The path argument must be of type string)")
  /\ partials run.2 !! "body" = None.
Proof.
  intros t run. unfold run.
  rewrite (applyLayout_layout_not_a_string Run.site 1 (VNum 3) (new_Content "x" ∅) false t).
  - split; vm_compute; reflexivity.
  - reflexivity.
  - discriminate.
Defined.

(** ** A silent object *)

(** X15. On a silent object [layouts] and [defaultLayout] write nothing to
    the console, verbose or not: their lines go through [debug] and [info],
    not through [err]. *)
Theorem silent_registry_is_quiet E args layout t :
  silent t = true ->
  console (layouts E args t).2 = console t
  /\ console (defaultLayout E layout t).2 = console t.
Proof.
  intros Hsilent. split.
  - pose (R := fun t t' : Taft =>
                 silent t = true -> silent t' = true /\ console t' = console t).
    assert (Hrefl : forall t, R t t) by (by intros t0).
    assert (Htrans : forall t1 t2 t3, R t1 t2 -> R t2 t3 -> R t1 t3).
    { intros t1 t2 t3 H12 H23 Hs. destruct (H12 Hs) as [Hs2 Hc2].
      destruct (H23 Hs2) as [Hs3 Hc3]. split; [done|congruence]. }
    assert (Hdebug : forall msg, keeps R (debug msg)).
    { intros msg t0 r t' Hrun Hs. rewrite debug_run, Hs, andb_false_r in Hrun.
      simplify_eq/=. by rewrite app_nil_r. }
    assert (Hlayouts : keeps R (layouts E args)).
    { unfold layouts. apply keeps_bind; [done| |intros _].
      { intros t0 r t' Hrun Hs. rewrite forEach_modify, foldl_set_layouts in Hrun.
        by simplify_eq/=. }
      apply keeps_bind; [done|intros t0 r t'; apply Hdebug|intros _].
      apply keeps_bind; [done| |intros _].
      { intros t0 r t' Hrun Hs. unfold modify, ret in Hrun.
        repeat case_match; by simplify_eq/=. }
      intros t0 r t'. destruct (_defaultLayout t0) as [d|]; [|by apply keeps_ret].
      destruct (truthy (VStr d)); [apply Hdebug|by apply keeps_ret]. }
    by apply (Hlayouts t _ _ (surjective_pairing _)).
  - rewrite defaultLayout_run. case_bool_decide; simpl; [done|]. by rewrite Hsilent.
Qed.

(** On the concrete site, silent and verbose at once. *)
Lemma silent_registry_is_quiet_witness :
  let t := new_Taft None true true in
  console (layouts Run.site ["/site/layouts/main.html"] t).2 = []
  /\ console (defaultLayout Run.site "nope" t).2 = [].
Proof.
  intros t.
  apply (silent_registry_is_quiet Run.site ["/site/layouts/main.html"] "nope" t).
  reflexivity.
Defined.

(** ** Errors out of [_applyLayout] *)


